(** * RebarWeb: the edge analysis device (master.py) and its web relay (app.py)

    A shallow embedding of the measurement pipeline, the result store, the
    edge HTTP handlers and the relay poll loop, followed by the properties
    proved about them.

    Python floats are IEEE binary64 numbers and are modelled by Rocq's
    primitive floats, so every arithmetic step below rounds as the
    interpreter does. Python ints are [Z]. Dictionaries whose iteration
    order matters are association lists in insertion order. *)

From Stdlib Require Import ZArith List String Bool Lia Floats Uint63.
Import ListNotations.

Set Warnings "-inexact-float".

Open Scope string_scope.
Open Scope list_scope.
Open Scope Z_scope.

(* ================================================================= *)
(** ** Python numbers *)

Module PyFloat.

(** [float(n)] for a Python int: the nearest binary64 value, ties to even
    (exact below 2^53 in magnitude; an int beyond the float range, which
    Python refuses in arithmetic, comes out infinite). *)
Definition of_int (z : Z) : float :=
  SF2Prim (binary_normalize prec emax z 0 false).

(** [float(n)] as a conversion that can fail: OverflowError ([None]) when
    the int is too large for a finite float. *)
Definition of_int_checked (z : Z) : option float :=
  let f := of_int z in
  if PrimFloat.is_infinity f then None else Some f.

(** Nearest integer to [n / d] for [d > 0], ties to the even one. *)
Definition round_half_even (n d : Z) : Z :=
  let q := n / d in
  let r := n mod d in
  match 2 * r ?= d with
  | Lt => q
  | Gt => q + 1
  | Eq => if Z.even q then q else q + 1
  end.

(** The builtin [round(x, ndigits)] for a float and [ndigits >= 0]: the
    exact binary value of [x] is rounded half-even to [ndigits] decimals and
    the decimal is converted back to the nearest float (the quotient of two
    exactly represented integers while [|x| * 10^ndigits < 2^53]).
    Infinities, NaN, zeros and integral values are returned as they are. *)
Definition round (x : float) (ndigits : Z) : float :=
  match Prim2SF x with
  | S754_finite s m e =>
      if 0 <=? e then x
      else
        let scale := 10 ^ ndigits in
        let n := round_half_even (Z.pos m * scale) (2 ^ (- e)) in
        let r := PrimFloat.div (of_int n) (of_int scale) in
        if s then PrimFloat.opp r else r
  | _ => x
  end.

(** [int(x)] for a float: truncation toward zero; [None] when Python raises
    (infinities and NaN). *)
Definition to_int (x : float) : option Z :=
  match Prim2SF x with
  | S754_zero _ => Some 0
  | S754_finite s m e =>
      let a := if 0 <=? e then Z.pos m * 2 ^ e else Z.pos m / 2 ^ (- e) in
      Some (if s then - a else a)
  | _ => None
  end.

(** [a <= x < b] as Python chains it. *)
Definition between (a x b : float) : bool :=
  PrimFloat.leb a x && PrimFloat.ltb x b.

(** Left-to-right float sum from 0, as the builtin [sum] computes it. *)
Definition sum (l : list float) : float :=
  fold_left PrimFloat.add l 0%float.

End PyFloat.

(* ================================================================= *)
(** ** Shared vocabulary: dictionaries, JSON values, HTTP answers *)

(** [d[k]] on a dictionary kept as an association list; [None] is KeyError. *)
Fixpoint dict_get {A : Type} (k : string) (d : list (string * A)) : option A :=
  match d with
  | [] => None
  | (k', v) :: rest => if String.eqb k k' then Some v else dict_get k rest
  end.

(** A decoded JSON value as a request body carries it; [JOther] stands for
    arrays and objects, which [float()] and [int()] refuse. *)
Inductive json : Type :=
| JNull
| JBool (b : bool)
| JInt (z : Z)
| JFloat (f : float)
| JStr (s : string)
| JOther.

(** A pixel box after [map(int, box)]. *)
Record bbox_t : Type := BBox { x1 : Z; y1 : Z; x2 : Z; y2 : Z }.

(** One segment as /api/latest serialises it. *)
Record segment : Type := Segment {
  seg_section_id : Z;
  seg_size_category : string;
  seg_diameter_mm : float;
  seg_confidence : float;
  seg_width_cm : float;
  seg_length_cm : float;
  seg_height_cm : float;
  seg_volume_cc : float;
  seg_bbox : bbox_t
}.

(** The body of /api/latest. *)
Record latest_body : Type := LatestBody {
  lb_timestamp : option string;
  lb_segments : list segment;
  lb_total_volume : float;
  lb_image_available : bool
}.

(** An exception-aware result: [Raised] carries the state as it stands when
    the exception leaves the function. *)
Inductive outcome (A : Type) : Type :=
| Ok (a : A)
| Raised (a : A).
Arguments Ok {A} a.
Arguments Raised {A} a.

(** The state an outcome carries, raised or not. *)
Definition state_of {A : Type} (o : outcome A) : A :=
  match o with
  | Ok a => a
  | Raised a => a
  end.

(* ================================================================= *)
(** ** master.py: the edge device *)

Module Master.

(** *** Tiers (load_cement_ratios) *)

Record ratio_info : Type := RatioInfo {
  cement : Z;
  sand : Z;
  aggregate : Z;
  diameter_range : option (float * float)
}.

(** [self.cement_ratios]: a dict, iterated in insertion order. *)
Definition cement_ratios_t : Type := list (string * ratio_info).

Definition default_cement_ratios : cement_ratios_t :=
  [ ("small",  RatioInfo 1 2 3 (Some (6, 12)%float));
    ("medium", RatioInfo 1 2 4 (Some (12, 20)%float));
    ("large",  RatioInfo 1 3 5 (Some (20, 50)%float)) ].

(** The test of the inner [if] of the tier loop, with the guard
    ["diameter_range" in info]. *)
Definition in_diameter_range (info : ratio_info) (diameter_mm : float) : bool :=
  match diameter_range info with
  | Some (min_diam, max_diam) => PyFloat.between min_diam diameter_mm max_diam
  | None => false
  end.

(** [for category, info in self.cement_ratios.items(): ... break]. *)
Fixpoint scan_categories (items : cement_ratios_t) (diameter_mm : float)
  : option string :=
  match items with
  | [] => None
  | (category, info) :: rest =>
      if in_diameter_range info diameter_mm then Some category
      else scan_categories rest diameter_mm
  end.

(** [size = "small"], overwritten by the first matching category. *)
Definition classify_size (cement_ratios : cement_ratios_t) (diameter_mm : float)
  : string :=
  match scan_categories cement_ratios diameter_mm with
  | Some category => category
  | None => "small"
  end.

(** *** Measurements of one section (body of the loop of detect_sections) *)

Definition width_px (b : bbox_t) : Z := x2 b - x1 b.
Definition height_px (b : bbox_t) : Z := y2 b - y1 b.
Definition diameter_px (b : bbox_t) : Z := Z.min (width_px b) (height_px b).

Definition mm_per_pixel : float := 0.1%float.

Definition diameter_mm (b : bbox_t) : float :=
  PrimFloat.mul (PyFloat.of_int (diameter_px b)) mm_per_pixel.

Definition length_cm (b : bbox_t) : float :=
  PrimFloat.mul (PyFloat.of_int (height_px b)) 0.1%float.
Definition width_cm (b : bbox_t) : float :=
  PrimFloat.mul (PyFloat.of_int (width_px b)) 0.1%float.
Definition height_cm (b : bbox_t) : float := width_cm b.
Definition volume_cc (b : bbox_t) : float :=
  PrimFloat.mul (PrimFloat.mul (length_cm b) (width_cm b)) (height_cm b).

(** One detection of a model: its box and its confidence score, the score
    taken as a Python float. *)
Record detection : Type := Detection { det_box : bbox_t; det_score : float }.

(** [section_result], keyed as the source keys it. *)
Record section_result : Type := SectionResult {
  section_id : Z;
  size_category : string;
  diameter_mm_r : float;
  confidence : float;
  width_cm_r : float;
  length_cm_r : float;
  height_cm_r : float;
  volume_cc_r : float;
  cement_ratio : Z;
  sand_ratio : Z;
  aggregate_ratio : Z;
  bbox : bbox_t
}.

(** The record built for the [i]-th detection (0-based); [None] is the
    KeyError of [self.cement_ratios[size]]. *)
Definition make_section_result (cement_ratios : cement_ratios_t) (i : nat)
    (d : detection) : option section_result :=
  let box := det_box d in
  let size := classify_size cement_ratios (diameter_mm box) in
  match dict_get size cement_ratios with
  | None => None
  | Some ratio =>
      Some {| section_id := Z.of_nat i + 1;
              size_category := size;
              diameter_mm_r := PyFloat.round (diameter_mm box) 2;
              confidence := PyFloat.round (det_score d) 3;
              width_cm_r := PyFloat.round (width_cm box) 2;
              length_cm_r := PyFloat.round (length_cm box) 2;
              height_cm_r := PyFloat.round (height_cm box) 2;
              volume_cc_r := PyFloat.round (volume_cc box) 2;
              cement_ratio := cement ratio;
              sand_ratio := sand ratio;
              aggregate_ratio := aggregate ratio;
              bbox := box |}
  end.

(** [section_data = {"timestamp": ..., **section_result}]. *)
Record section_data : Type := SectionData {
  sd_timestamp : string;
  sd_result : section_result
}.

(** *** The analysis state published to the API (global latest_analysis) *)

Record latest_analysis_t : Type := LatestAnalysis {
  timestamp : option string;
  image : option string;
  image_path : option string;
  segments : list segment;
  total_volume : float
}.

Definition latest_analysis0 : latest_analysis_t :=
  {| timestamp := None; image := None; image_path := None;
     segments := []; total_volume := 0%float |}.

(** *** The application object (RebarAnalysisApp) *)

(** A frame or a picture derived from one; pixels are not modelled. *)
Inductive picture : Type :=
| Frame (id : nat)
| Annotated (base : picture) (boxes : list bbox_t).

(** What update_results appends to the results pane, before formatting. *)
Inductive text_line : Type :=
| Line (s : string)
| FoundSections (n : nat)
| SectionLine (id : Z) (size : string)
| DiamLine (d : float)
| MixLine (c s a : Z)
| ErrorLine (what : string).

(** A [cv2.VideoCapture] handle. *)
Record camera_t : Type := Camera { cam_index : Z; cam_opened : bool }.

Record app : Type := App {
  is_processing : bool;
  camera_paused : bool;
  captured_frame : option picture;
  current_results : list section_data;
  result_image : option picture;
  current_timestamp : string;
  current_result_dir : string;
  cement_ratios : cement_ratios_t;
  camera_index : Z;
  camera : option camera_t;
  (** [rebar_cfg.MODEL.ROI_HEADS.SCORE_THRESH_TEST] *)
  score_thresh_test : float;
  (** the content of camera_settings.json *)
  camera_settings_file : option Z;
  (** widgets: the capture button, the status line, the results pane *)
  capture_btn_enabled : bool;
  status_label : string;
  results_text : list text_line
}.

Definition set_is_processing (v : bool) (a : app) : app :=
  App v (camera_paused a) (captured_frame a) (current_results a)
      (result_image a) (current_timestamp a) (current_result_dir a)
      (cement_ratios a) (camera_index a) (camera a) (score_thresh_test a)
      (camera_settings_file a) (capture_btn_enabled a) (status_label a)
      (results_text a).
Definition set_camera_paused (v : bool) (a : app) : app :=
  App (is_processing a) v (captured_frame a) (current_results a)
      (result_image a) (current_timestamp a) (current_result_dir a)
      (cement_ratios a) (camera_index a) (camera a) (score_thresh_test a)
      (camera_settings_file a) (capture_btn_enabled a) (status_label a)
      (results_text a).
Definition set_captured_frame (v : option picture) (a : app) : app :=
  App (is_processing a) (camera_paused a) v (current_results a)
      (result_image a) (current_timestamp a) (current_result_dir a)
      (cement_ratios a) (camera_index a) (camera a) (score_thresh_test a)
      (camera_settings_file a) (capture_btn_enabled a) (status_label a)
      (results_text a).
Definition set_current_results (v : list section_data) (a : app) : app :=
  App (is_processing a) (camera_paused a) (captured_frame a) v
      (result_image a) (current_timestamp a) (current_result_dir a)
      (cement_ratios a) (camera_index a) (camera a) (score_thresh_test a)
      (camera_settings_file a) (capture_btn_enabled a) (status_label a)
      (results_text a).
Definition set_result_image (v : option picture) (a : app) : app :=
  App (is_processing a) (camera_paused a) (captured_frame a) (current_results a)
      v (current_timestamp a) (current_result_dir a)
      (cement_ratios a) (camera_index a) (camera a) (score_thresh_test a)
      (camera_settings_file a) (capture_btn_enabled a) (status_label a)
      (results_text a).
Definition set_current_timestamp (v : string) (a : app) : app :=
  App (is_processing a) (camera_paused a) (captured_frame a) (current_results a)
      (result_image a) v (current_result_dir a)
      (cement_ratios a) (camera_index a) (camera a) (score_thresh_test a)
      (camera_settings_file a) (capture_btn_enabled a) (status_label a)
      (results_text a).
Definition set_current_result_dir (v : string) (a : app) : app :=
  App (is_processing a) (camera_paused a) (captured_frame a) (current_results a)
      (result_image a) (current_timestamp a) v
      (cement_ratios a) (camera_index a) (camera a) (score_thresh_test a)
      (camera_settings_file a) (capture_btn_enabled a) (status_label a)
      (results_text a).
Definition set_camera_index (v : Z) (a : app) : app :=
  App (is_processing a) (camera_paused a) (captured_frame a) (current_results a)
      (result_image a) (current_timestamp a) (current_result_dir a)
      (cement_ratios a) v (camera a) (score_thresh_test a)
      (camera_settings_file a) (capture_btn_enabled a) (status_label a)
      (results_text a).
Definition set_camera (v : option camera_t) (a : app) : app :=
  App (is_processing a) (camera_paused a) (captured_frame a) (current_results a)
      (result_image a) (current_timestamp a) (current_result_dir a)
      (cement_ratios a) (camera_index a) v (score_thresh_test a)
      (camera_settings_file a) (capture_btn_enabled a) (status_label a)
      (results_text a).
Definition set_score_thresh_test (v : float) (a : app) : app :=
  App (is_processing a) (camera_paused a) (captured_frame a) (current_results a)
      (result_image a) (current_timestamp a) (current_result_dir a)
      (cement_ratios a) (camera_index a) (camera a) v
      (camera_settings_file a) (capture_btn_enabled a) (status_label a)
      (results_text a).
Definition set_camera_settings_file (v : option Z) (a : app) : app :=
  App (is_processing a) (camera_paused a) (captured_frame a) (current_results a)
      (result_image a) (current_timestamp a) (current_result_dir a)
      (cement_ratios a) (camera_index a) (camera a) (score_thresh_test a)
      v (capture_btn_enabled a) (status_label a)
      (results_text a).
Definition set_capture_btn_enabled (v : bool) (a : app) : app :=
  App (is_processing a) (camera_paused a) (captured_frame a) (current_results a)
      (result_image a) (current_timestamp a) (current_result_dir a)
      (cement_ratios a) (camera_index a) (camera a) (score_thresh_test a)
      (camera_settings_file a) v (status_label a)
      (results_text a).
Definition set_status_label (v : string) (a : app) : app :=
  App (is_processing a) (camera_paused a) (captured_frame a) (current_results a)
      (result_image a) (current_timestamp a) (current_result_dir a)
      (cement_ratios a) (camera_index a) (camera a) (score_thresh_test a)
      (camera_settings_file a) (capture_btn_enabled a) v
      (results_text a).
Definition set_results_text (v : list text_line) (a : app) : app :=
  App (is_processing a) (camera_paused a) (captured_frame a) (current_results a)
      (result_image a) (current_timestamp a) (current_result_dir a)
      (cement_ratios a) (camera_index a) (camera a) (score_thresh_test a)
      (camera_settings_file a) (capture_btn_enabled a) (status_label a)
      v.

(** What the device does not own: the two detection models, the camera,
    the JPEG encoder, the clock, the thread library and the string parsers
    of [float()] and [int()]. *)
Record env : Type := Env {
  rebar_model : picture -> list detection;
  section_model : picture -> list detection;
  (** [None]: the conversion raises *)
  encode_jpeg_b64 : picture -> option string;
  (** whether [cv2.VideoCapture(idx).isOpened()] *)
  camera_opens : Z -> bool;
  (** the frame of [camera.read()], or [None] when [ret] is false *)
  camera_read : option picture;
  (** [time.strftime("%Y%m%d-%H%M%S")] *)
  clock : string;
  (** whether [Thread.start()] returns rather than raises *)
  thread_starts : bool;
  str_to_float : string -> option float;
  str_to_int : string -> option Z
}.

(** *** update_api_data: publication of a result *)

(** The dictionary built for one entry of [self.current_results]. *)
Definition api_segment (result : section_data) : segment :=
  let r := sd_result result in
  {| seg_section_id := section_id r;
     seg_size_category := size_category r;
     seg_diameter_mm := diameter_mm_r r;
     seg_confidence := confidence r;
     seg_width_cm := width_cm_r r;
     seg_length_cm := length_cm_r r;
     seg_height_cm := height_cm_r r;
     seg_volume_cc := volume_cc_r r;
     seg_bbox := bbox r |}.

(** [for result in self.current_results], with its two accumulators. *)
Fixpoint api_loop (results : list section_data) (segs : list segment)
    (total : float) : list segment * float :=
  match results with
  | [] => (segs, total)
  | result :: rest =>
      let s := api_segment result in
      api_loop rest (segs ++ [s]) (PrimFloat.add total (seg_volume_cc s))
  end.

(** One assignment [latest_analysis[key] = value]. *)
Inductive store_write : Type :=
| SetImage (b : string)
| SetTimestamp (t : string)
| SetSegments (l : list segment)
| SetTotalVolume (v : float)
| SetImagePath (p : string).

Definition apply_write (la : latest_analysis_t) (w : store_write)
  : latest_analysis_t :=
  match w with
  | SetImage b =>
      LatestAnalysis (timestamp la) (Some b) (image_path la) (segments la)
                     (total_volume la)
  | SetTimestamp t =>
      LatestAnalysis (Some t) (image la) (image_path la) (segments la)
                     (total_volume la)
  | SetSegments l =>
      LatestAnalysis (timestamp la) (image la) (image_path la) l
                     (total_volume la)
  | SetTotalVolume v =>
      LatestAnalysis (timestamp la) (image la) (image_path la) (segments la) v
  | SetImagePath p =>
      LatestAnalysis (timestamp la) (image la) (Some p) (segments la)
                     (total_volume la)
  end.

(** The assignments update_api_data performs, in program order: none when
    there are no results; the image only when there is a result image and
    its conversion does not raise. *)
Definition update_api_data_writes (e : env) (self : app) : list store_write :=
  match current_results self with
  | [] => []
  | _ :: _ =>
      let '(segs, total) := api_loop (current_results self) [] 0%float in
      match result_image self with
      | Some img =>
          match encode_jpeg_b64 e img with
          | Some b => [SetImage b]
          | None => []
          end
      | None => []
      end
      ++ [ SetTimestamp (current_timestamp self);
           SetSegments segs;
           SetTotalVolume total;
           SetImagePath (current_result_dir self ++ "/section_result.jpg")%string ]
  end.

Definition update_api_data (e : env) (self : app) (la : latest_analysis_t)
  : latest_analysis_t :=
  fold_left apply_write (update_api_data_writes e self) la.

(** *** The HTTP handlers over the store *)

Inductive resp_body : Type :=
| MessageBody (s : string)
| ErrorBody (s : string)
| ImageBody (b : string).

Record http_response : Type := Http { status_code : Z; body : resp_body }.

Definition no_data : latest_body :=
  {| lb_timestamp := None; lb_segments := []; lb_total_volume := 0%float;
     lb_image_available := false |}.

Definition is_some {A : Type} (o : option A) : bool :=
  match o with Some _ => true | None => false end.

(** /api/latest (always answered with status 200). *)
Definition get_latest (la : latest_analysis_t) : latest_body :=
  match timestamp la with
  | None => no_data
  | Some _ =>
      {| lb_timestamp := timestamp la;
         lb_segments := segments la;
         lb_total_volume := total_volume la;
         lb_image_available := is_some (image la) |}
  end.

(** /api/latest_image. *)
Definition get_latest_image (la : latest_analysis_t) : http_response :=
  match image la with
  | None => Http 404 (ErrorBody "No image available")
  | Some b => Http 200 (ImageBody b)
  end.

(** *** get_latest read by read, against a publication in progress

    The handler runs in the server's thread and update_api_data in the
    window's; neither takes a lock. A dictionary read or assignment is one
    step; a schedule says whose step comes next. *)

Inductive reader : Type :=
| AtTest
| AtTimestamp
| AtSegments (ts : option string)
| AtTotalVolume (ts : option string) (segs : list segment)
| AtImage (ts : option string) (segs : list segment) (tot : float)
| Returned (b : latest_body).

Definition reader_step (la : latest_analysis_t) (r : reader) : reader :=
  match r with
  | AtTest =>
      match timestamp la with
      | None => Returned no_data
      | Some _ => AtTimestamp
      end
  | AtTimestamp => AtSegments (timestamp la)
  | AtSegments ts => AtTotalVolume ts (segments la)
  | AtTotalVolume ts segs => AtImage ts segs (total_volume la)
  | AtImage ts segs tot => Returned (LatestBody ts segs tot (is_some (image la)))
  | Returned b => Returned b
  end.

Inductive turn : Type := Writer | Reader.

Record conc : Type := Conc {
  store : latest_analysis_t;
  pending : list store_write;
  rd : reader
}.

Definition conc_step (c : conc) (t : turn) : conc :=
  match t with
  | Writer =>
      match pending c with
      | [] => c
      | w :: ws => Conc (apply_write (store c) w) ws (rd c)
      end
  | Reader => Conc (store c) (pending c) (reader_step (store c) (rd c))
  end.

Definition run_schedule (sched : list turn) (c : conc) : conc :=
  fold_left conc_step sched c.

(** The number of turns a schedule gives the writer. *)
Fixpoint writer_turns (sched : list turn) : nat :=
  match sched with
  | [] => O
  | Writer :: rest => S (writer_turns rest)
  | Reader :: rest => writer_turns rest
  end.

(** [n] consecutive reads of the handler against a store at rest. *)
Fixpoint reader_steps (n : nat) (la : latest_analysis_t) (r : reader) : reader :=
  match n with
  | O => r
  | S k => reader_steps k la (reader_step la r)
  end.

(** *** The analysis pipeline *)

Definition update_results (t : list text_line) (self : app) : app :=
  set_results_text (results_text self ++ t) self.

(** display_result_in_camera_panel: the preview is paused on the picture. *)
Definition display_result_in_camera_panel (self : app) : app :=
  set_camera_paused true self.

(** The per-section loop of detect_sections on the application object;
    [Raised] is the KeyError of a missing fallback tier. *)
Fixpoint sections_loop (i : nat) (dets : list detection) (self : app)
  : outcome app :=
  match dets with
  | [] => Ok self
  | d :: rest =>
      match make_section_result (cement_ratios self) i d with
      | None => Raised self
      | Some r =>
          sections_loop (S i) rest
            (update_results
               [ SectionLine (section_id r) (size_category r);
                 DiamLine (diameter_mm (det_box d));
                 MixLine (cement_ratio r) (sand_ratio r) (aggregate_ratio r) ]
               (set_current_results
                  (current_results self ++ [SectionData (current_timestamp self) r])
                  self))
      end
  end.

Definition detect_sections (e : env) (frame_rgb : picture)
    (st : app * latest_analysis_t) : outcome (app * latest_analysis_t) :=
  let '(self, la) := st in
  let instances := section_model e frame_rgb in
  match instances with
  | [] =>
      Ok (display_result_in_camera_panel
            (update_results [Line "No rebar sections detected!"] self), la)
  | _ :: _ =>
      match sections_loop 0 instances
              (update_results [FoundSections (List.length instances)] self) with
      | Raised self1 => Raised (self1, la)
      | Ok self1 =>
          (* the result picture and the CSV report are written to disk here *)
          let result_image := Annotated frame_rgb (map det_box instances) in
          let self2 :=
            display_result_in_camera_panel
              (set_result_image (Some result_image) self1) in
          Ok (self2, update_api_data e self2 la)
      end
  end.

Definition detect_rebar (e : env) (frame : picture)
    (st : app * latest_analysis_t) : outcome (app * latest_analysis_t) :=
  let '(self, la) := st in
  match rebar_model e frame with
  | [] =>
      Ok (display_result_in_camera_panel
            (update_results [Line "No rebar detected in the image!"] self), la)
  | _ :: _ => detect_sections e frame st
  end.

(** The analysis of the captured frame, with its [finally] clause. *)
Definition _do_analyze (e : env) (st : app * latest_analysis_t)
  : app * latest_analysis_t :=
  let '(self, la) := st in
  match captured_frame self with
  | None =>
      (set_is_processing false
         (set_capture_btn_enabled true
            (set_status_label "Error: No image"
               (update_results [Line "No image captured yet! Try again."] self))),
       la)
  | Some frame =>
      let '(self1, la1) :=
        match detect_rebar e frame st with
        | Ok (s, l) => (set_status_label "Analysis complete" s, l)
        | Raised (s, l) =>
            (set_status_label "Analysis error"
               (update_results [ErrorLine "Error analyzing image"] s), l)
        end in
      (set_is_processing false (set_capture_btn_enabled true self1), la1)
  end.

(** *** The camera session and the capture trigger *)

Definition camera_ready (self : app) : bool :=
  match camera self with
  | Some c => cam_opened c
  | None => false
  end.

Definition initialize_camera (e : env) (self : app) : outcome app :=
  let cam := Camera (camera_index self) (camera_opens e (camera_index self)) in
  let self1 := set_camera (Some cam) self in
  if cam_opened cam then Ok (set_status_label "Camera initialized" self1)
  else Raised self1.

Definition restart_camera (e : env) (self : app) : app :=
  match initialize_camera e
          (set_camera None (set_status_label "Restarting camera..." self)) with
  | Ok s => set_status_label "Camera restarted" s
  | Raised s => set_status_label "Camera restart failed" s
  end.

Definition start_preview (e : env) (self : app) : app :=
  if camera_ready self then self
  else
    match initialize_camera e self with
    | Ok s => s
    | Raised s => restart_camera e s
    end.

(** The [except] branch of _do_capture. *)
Definition capture_failed (e : env) (self : app) : app :=
  restart_camera e
    (set_is_processing false
       (update_results [ErrorLine "Error capturing image"]
          (set_capture_btn_enabled true
             (set_status_label "Capture error" self)))).

(** The capture worker; the boolean says whether [_do_analyze] was
    scheduled. *)
Definition _do_capture (e : env) (self : app) : app * bool :=
  let self1 := set_current_results [] self in
  match (if camera_ready self1 then Ok self1 else initialize_camera e self1) with
  | Raised s => (capture_failed e s, false)
  | Ok s =>
      match camera_read e with
      | None => (capture_failed e s, false)
      | Some frame =>
          (update_results [Line "Image captured. Starting analysis..."]
             (set_status_label "Analyzing image..."
                (set_current_result_dir
                   ("analysis_results/analysis_" ++ clock e)%string
                   (set_current_timestamp (clock e)
                      (set_captured_frame (Some frame) s)))),
           true)
      end
  end.

(** A thread handed to [threading.Thread(target=...).start()]. *)
Inductive thread : Type :=
| Thread_do_capture
| Thread_capture_image.

(** capture_image: the new state, the thread started, the line printed. *)
Definition capture_image (self : app) : app * list thread * list string :=
  if is_processing self then
    (self, [], ["Already processing, ignoring capture request"])
  else
    (set_results_text [Line "Capturing image..."]
       (set_status_label "Capturing image..."
          (set_capture_btn_enabled false
             (set_is_processing true self))),
     [Thread_do_capture], []).

(** One trigger carried to its end with no other thread in between:
    capture_image, then the worker, then the analysis it schedules. *)
Definition capture_and_analyze (e : env) (st : app * latest_analysis_t)
  : app * latest_analysis_t :=
  let '(self, la) := st in
  match capture_image self with
  | (self1, [], _) => (self1, la)
  | (self1, _ :: _, _) =>
      match _do_capture e self1 with
      | (self2, true) => _do_analyze e (self2, la)
      | (self2, false) => (self2, la)
      end
  end.

(** POST /api/capture: the answer and the thread started. *)
Definition trigger_capture (e : env) (app_instance : option app)
  : http_response * list thread :=
  match app_instance with
  | Some _ =>
      if thread_starts e then
        (Http 200 (MessageBody "Capture triggered successfully"),
         [Thread_capture_image])
      else (Http 500 (ErrorBody "can't start new thread"), [])
  | None => (Http 500 (ErrorBody "Application instance not available"), [])
  end.

(** The request handled and the thread it started run to its end. *)
Definition api_capture (e : env) (self : app)
  : http_response * (app * list thread * list string) :=
  match trigger_capture e (Some self) with
  | (r, []) => (r, (self, [], []))
  | (r, _ :: _) => (r, capture_image self)
  end.

(** *** The configuration handlers *)

(** [float(v)] and [int(v)] on a decoded JSON value; [None] when Python
    raises TypeError, ValueError or OverflowError. *)
Definition py_float (e : env) (v : json) : option float :=
  match v with
  | JNull | JOther => None
  | JBool b => Some (if b then 1%float else 0%float)
  | JInt z => PyFloat.of_int_checked z
  | JFloat f => Some f
  | JStr s => str_to_float e s
  end.

Definition py_int (e : env) (v : json) : option Z :=
  match v with
  | JNull | JOther => None
  | JBool b => Some (if b then 1 else 0)
  | JInt z => Some z
  | JFloat f => PyFloat.to_int f
  | JStr s => str_to_int e s
  end.

Record config_body : Type := ConfigBody {
  detection_threshold : float;
  camera_enabled : bool;
  external_camera_index : Z
}.

(** GET /api/config. *)
Definition get_config (app_instance : option app) : config_body :=
  match app_instance with
  | Some self => ConfigBody (score_thresh_test self) true (camera_index self)
  | None => ConfigBody 0.7%float true 0
  end.

Definition save_camera_settings (self : app) : app :=
  set_camera_settings_file (Some (camera_index self)) self.

(** The threshold part of update_config. *)
Definition update_threshold (e : env) (config_data : list (string * json))
    (self : app) : outcome app :=
  match dict_get "detection_threshold" config_data with
  | None => Ok self
  | Some v =>
      match py_float e v with
      | None => Raised self
      | Some f => Ok (set_score_thresh_test f self)
      end
  end.

(** The camera part of update_config; [camera.release()] on a missing
    camera and a camera that does not open both raise. *)
Definition update_camera_index (e : env) (config_data : list (string * json))
    (self : app) : outcome app :=
  match dict_get "external_camera_index" config_data with
  | None => Ok self
  | Some v =>
      match py_int e v with
      | None => Raised self
      | Some idx =>
          if camera_index self =? idx then Ok self
          else
            let self1 := save_camera_settings (set_camera_index idx self) in
            match camera self1 with
            | None => Raised self1
            | Some _ =>
                match initialize_camera e (set_camera None self1) with
                | Raised self2 => Raised self2
                | Ok self2 => Ok (start_preview e self2)
                end
            end
      end
  end.

(** POST /api/config: the answer and the application object afterwards. *)
Definition update_config (e : env) (config_data : list (string * json))
    (app_instance : option app) : http_response * option app :=
  match app_instance with
  | None => (Http 200 (MessageBody "Configuration updated"), None)
  | Some self =>
      match update_threshold e config_data self with
      | Raised s => (Http 500 (ErrorBody "exception"), Some s)
      | Ok s1 =>
          match update_camera_index e config_data s1 with
          | Raised s => (Http 500 (ErrorBody "exception"), Some s)
          | Ok s2 => (Http 200 (MessageBody "Configuration updated"), Some s2)
          end
      end
  end.

(** *** The preview refresh and the return to the camera *)




(** *** GET /api/status *)



(** *** save_results_to_csv *)

(** A value of a result dictionary, as it is handed to the CSV writer. *)
Inductive cell : Type :=
| CStr (s : string)
| CInt (z : Z)
| CFloat (f : float)
| CBox (b : bbox_t).

(** The items of one entry of [self.current_results], in key order. *)
Definition section_data_items (d : section_data) : list (string * cell) :=
  let r := sd_result d in
  [ ("timestamp", CStr (sd_timestamp d));
    ("section_id", CInt (section_id r));
    ("size_category", CStr (size_category r));
    ("diameter_mm", CFloat (diameter_mm_r r));
    ("confidence", CFloat (confidence r));
    ("width_cm", CFloat (width_cm_r r));
    ("length_cm", CFloat (length_cm_r r));
    ("height_cm", CFloat (height_cm_r r));
    ("volume_cc", CFloat (volume_cc_r r));
    ("cement_ratio", CInt (cement_ratio r));
    ("sand_ratio", CInt (sand_ratio r));
    ("aggregate_ratio", CInt (aggregate_ratio r));
    ("bbox", CBox (bbox r)) ].

Definition csv_headers : list string :=
  [ "timestamp"; "section_id"; "size_category"; "diameter_mm";
    "confidence"; "width_cm"; "length_cm"; "height_cm"; "volume_cc";
    "cement_ratio"; "sand_ratio"; "aggregate_ratio" ].

Inductive csv_line : Type :=
| HeaderLine (names : list string)
| DataLine (cells : list (option cell)).

(** [csv.DictWriter.writerow] with the default [extrasaction='raise']: a
    key outside the field names is a ValueError ([None]); a field name the
    row lacks is written empty. *)
Definition writerow (fieldnames : list string) (rowdict : list (string * cell))
  : option csv_line :=
  if forallb (fun kv => existsb (String.eqb (fst kv)) fieldnames) rowdict
  then Some (DataLine (map (fun h => dict_get h rowdict) fieldnames))
  else None.

(** The [for result in self.current_results] loop of the writer; [Raised]
    carries the lines written before the exception. *)
Fixpoint write_rows (results : list section_data) (file : list csv_line)
  : outcome (list csv_line) :=
  match results with
  | [] => Ok file
  | result :: rest =>
      match writerow csv_headers (section_data_items result) with
      | None => Raised file
      | Some line => write_rows rest (file ++ [line])
      end
  end.

(** What save_results_to_csv leaves on disk. *)
Record report : Type := Report {
  analysis_data_csv : option (list csv_line);
  summary_txt : bool
}.

(** save_results_to_csv: the application object and the files afterwards
    (the exception of a failed row is caught and printed). *)
Definition save_results_to_csv (self : app) : app * report :=
  match current_results self with
  | [] => (self, Report None false)
  | _ :: _ =>
      match write_rows (current_results self) [HeaderLine csv_headers] with
      | Raised file => (self, Report (Some file) false)
      | Ok file =>
          (set_status_label
             ("Results saved to: analysis_" ++ current_timestamp self)%string self,
           Report (Some file) true)
      end
  end.

End Master.

(* ================================================================= *)
(** ** app.py: the web relay *)

Module App.

(** The global [latest_data]. *)
Record latest_data_t : Type := LatestData {
  connected : bool;
  last_image : option string;
  last_results : list segment;
  last_update : option string;
  total_volume : float
}.

Definition latest_data0 : latest_data_t :=
  {| connected := false; last_image := None; last_results := [];
     last_update := None; total_volume := 0%float |}.

(** What one [requests.get] comes to: it raises (timeout, refused
    connection), or answers with a status code and a body; [Garbled] is an
    answer whose body [.json()] cannot decode. *)
Inductive reply (A : Type) : Type :=
| Failed
| Garbled (code : Z)
| Reply (code : Z) (payload : A).
Arguments Failed {A}.
Arguments Garbled {A} code.
Arguments Reply {A} code payload.

Definition reply_code {A : Type} (r : reply A) : option Z :=
  match r with
  | Failed => None
  | Garbled c => Some c
  | Reply c _ => Some c
  end.

(** A probe succeeded: it returned, with status 200. *)
Definition probe_ok {A : Type} (r : reply A) : bool :=
  match reply_code r with
  | Some c => c =? 200
  | None => false
  end.

(** check_connection: the status probe, then the data probe. *)
Definition check_connection {A B : Type} (status_probe : reply A)
    (latest_probe : reply B) : bool :=
  match reply_code status_probe with
  | None => false
  | Some c =>
      if c =? 200 then
        match reply_code latest_probe with
        | None => false
        | Some c' => if c' =? 200 then true else false
        end
      else false
  end.

(** The events pushed to the browsers. *)
Inductive event : Type :=
| connection_status (is_connected : bool)
| new_data (is_connected : bool) (timestamp : option string) (has_image : bool)
    (segments_count : nat) (volume : float)
| connection_error.

(** The answers the edge gives during one cycle, request by request; an
    answer to a request the cycle does not make is not looked at.
    [image_fetch] carries [.json().get("image")]. *)
Record cycle_net : Type := CycleNet {
  status_probe : reply unit;
  latest_probe : reply unit;
  latest_fetch : reply latest_body;
  image_fetch : reply (option string)
}.


Definition option_string_eqb (a b : option string) : bool :=
  match a, b with
  | None, None => true
  | Some x, Some y => String.eqb x y
  | _, _ => false
  end.

Definition set_connected (v : bool) (ld : latest_data_t) : latest_data_t :=
  LatestData v (last_image ld) (last_results ld) (last_update ld)
             (total_volume ld).
Definition set_last_image (v : option string) (ld : latest_data_t)
  : latest_data_t :=
  LatestData (connected ld) v (last_results ld) (last_update ld)
             (total_volume ld).

(** The three assignments made on a new timestamp. *)
Definition cache_results (data : latest_body) (ld : latest_data_t)
  : latest_data_t :=
  LatestData (connected ld) (last_image ld) (lb_segments data)
             (lb_timestamp data) (lb_total_volume data).

Definition new_data_of (ld : latest_data_t) : event :=
  new_data true (last_update ld) (Master.is_some (last_image ld))
           (List.length (last_results ld)) (total_volume ld).

(** The [try] block of the loop body: the cache afterwards and the events
    emitted; an exception keeps the assignments made before it. *)
Definition sync_data (net : cycle_net) (ld : latest_data_t)
  : latest_data_t * list event :=
  let failed ld' := (ld', [connection_error; connection_status false]) in
  match latest_fetch net with
  | Failed => failed ld
  | Garbled code =>
      if code =? 200 then failed ld else (ld, [connection_status true])
  | Reply code data =>
      if code =? 200 then
        if option_string_eqb (lb_timestamp data) (last_update ld) then
          (ld, [connection_status true])
        else
          let ld1 := cache_results data ld in
          if lb_image_available data then
            match image_fetch net with
            | Failed => failed ld1
            | Garbled icode =>
                if icode =? 200 then failed ld1
                else (ld1, [new_data_of ld1; connection_status true])
            | Reply icode img =>
                let ld2 := if icode =? 200 then set_last_image img ld1 else ld1 in
                (ld2, [new_data_of ld2; connection_status true])
            end
          else (ld1, [new_data_of ld1; connection_status true])
      else (ld, [connection_status true])
  end.

(** One turn of the [while True] loop of get_raspi_data. *)
Definition poll_cycle (net : cycle_net) (ld : latest_data_t)
  : latest_data_t * list event :=
  let conn := check_connection (status_probe net) (latest_probe net) in
  let old_connected := connected ld in
  let ld1 := set_connected conn ld in
  let changed :=
    if Bool.eqb conn old_connected then [] else [connection_status conn] in
  if conn then
    let '(ld2, evs) := sync_data net ld1 in (ld2, changed ++ evs)
  else (ld1, changed ++ [connection_status false]).

(** The loop over the cycles of a finite run of the relay. *)
Fixpoint get_raspi_data (nets : list cycle_net) (ld : latest_data_t)
  : latest_data_t * list event :=
  match nets with
  | [] => (ld, [])
  | net :: rest =>
      let '(ld1, evs) := poll_cycle net ld in
      let '(ld2, evs') := get_raspi_data rest ld1 in
      (ld2, evs ++ evs')
  end.

Definition is_new_data (ev : event) : bool :=
  match ev with
  | new_data _ _ _ _ _ => true
  | _ => false
  end.

Definition count_new_data (evs : list event) : nat :=
  List.length (filter is_new_data evs).

(** *** The relay's own HTTP endpoints *)

Inductive relay_body : Type :=
| RMessage (s : string)
| RError (s : string)
| RImage (b : string)
| RConfig (c : Master.config_body).

Record relay_response : Type := Relay { r_code : Z; r_body : relay_body }.

(** What a forwarded request to the edge comes to: it raises ([None]) or
    answers with a status code and a text. *)
Definition edge_answer : Type := option (Z * string).

(** GET /api/latest_data. *)
Record latest_data_body : Type := LatestDataBody {
  ldb_connected : bool;
  ldb_timestamp : option string;
  ldb_segments : list segment;
  ldb_total_volume : float;
  ldb_has_image : bool
}.

Definition get_latest_data (ld : latest_data_t) : latest_data_body :=
  {| ldb_connected := connected ld;
     ldb_timestamp := last_update ld;
     ldb_segments := last_results ld;
     ldb_total_volume := total_volume ld;
     ldb_has_image := Master.is_some (last_image ld) |}.

(** GET /api/latest_image: the test is the truth value of the cached
    image, so an empty string counts as no image. *)
Definition get_latest_image (ld : latest_data_t) : relay_response :=
  match last_image ld with
  | Some b =>
      if String.eqb b "" then Relay 404 (RError "No image available")
      else Relay 200 (RImage b)
  | None => Relay 404 (RError "No image available")
  end.

(** POST /api/trigger_capture: the answer, and whether the edge was
    contacted. *)
Definition trigger_capture (ld : latest_data_t) (edge : edge_answer)
  : relay_response * bool :=
  if negb (connected ld) then
    (Relay 503 (RError "Not connected to Raspberry Pi"), false)
  else
    match edge with
    | Some (code, text) =>
        if code =? 200 then
          (Relay 200 (RMessage "Capture triggered successfully"), true)
        else (Relay code (RError ("Error: " ++ text)%string), true)
    | None => (Relay 500 (RError "Connection error"), true)
    end.

(** POST /api/set_config: the body is forwarded as it is. *)
Definition set_config (ld : latest_data_t) (edge : edge_answer)
  : relay_response * bool :=
  if negb (connected ld) then
    (Relay 503 (RError "Not connected to Raspberry Pi"), false)
  else
    match edge with
    | Some (code, text) =>
        if code =? 200 then
          (Relay 200 (RMessage "Configuration updated successfully"), true)
        else (Relay code (RError ("Error: " ++ text)%string), true)
    | None => (Relay 500 (RError "Connection error"), true)
    end.

(** GET /api/get_config. *)
Definition get_config (ld : latest_data_t) (edge : reply Master.config_body)
  : relay_response * bool :=
  if negb (connected ld) then
    (Relay 503 (RError "Not connected to Raspberry Pi"), false)
  else
    match edge with
    | Failed => (Relay 500 (RError "Connection error"), true)
    | Garbled code =>
        if code =? 200 then (Relay 500 (RError "Connection error"), true)
        else (Relay code (RError "Error"), true)
    | Reply code c =>
        if code =? 200 then (Relay 200 (RConfig c), true)
        else (Relay code (RError "Error"), true)
    end.

(** *** The relay against a live edge *)

Definition body_text (b : Master.resp_body) : string :=
  match b with
  | Master.MessageBody s => s
  | Master.ErrorBody s => s
  | Master.ImageBody s => s
  end.

(** An answer of the edge as the relay receives it. *)
Definition over_http (r : Master.http_response) : edge_answer :=
  Some (Master.status_code r, body_text (Master.body r)).


(** A browser's capture request carried through the relay to the edge:
    the relay's answer and the edge's application object afterwards. *)
Definition browser_capture (e : Master.env) (ld : latest_data_t)
    (self : Master.app) : relay_response * Master.app :=
  let '(r, (self1, _, _)) := Master.api_capture e self in
  let '(answer, contacted) := trigger_capture ld (over_http r) in
  (answer, if contacted then self1 else self).

(** A browser's configuration request carried through the relay. *)
Definition browser_set_config (e : Master.env) (ld : latest_data_t)
    (config_data : list (string * json)) (self : Master.app)
  : relay_response * Master.app :=
  let '(r, inst) := Master.update_config e config_data (Some self) in
  let '(answer, contacted) := set_config ld (over_http r) in
  (answer,
   if contacted then match inst with Some s => s | None => self end else self).

End App.

(* ================================================================= *)
(** ** The specification's wording of the tier scan, and sample data *)

Module Spec.

Import Master.

(** The lower end of a tier's range (tiers without a range sort first). *)
Definition range_min (t : string * ratio_info) : float :=
  match diameter_range (snd t) with
  | Some (min_diam, _) => min_diam
  | None => neg_infinity
  end.

Fixpoint insert_by_min (t : string * ratio_info) (l : cement_ratios_t)
  : cement_ratios_t :=
  match l with
  | [] => [t]
  | u :: rest =>
      if PrimFloat.leb (range_min t) (range_min u) then t :: l
      else u :: insert_by_min t rest
  end.

(** Tiers sorted ascending by [diameter_range.min] (stable). *)
Definition sort_by_min (tiers : cement_ratios_t) : cement_ratios_t :=
  fold_right insert_by_min [] tiers.

(** "Sort tiers ascending by diameter_range.min before matching, selecting
    the first match; if no tier matches, the smallest tier is used." *)
Definition classify_sorted (tiers : cement_ratios_t) (diameter_mm : float)
  : option string :=
  let sorted := sort_by_min tiers in
  match scan_categories sorted diameter_mm with
  | Some category => Some category
  | None =>
      match sorted with
      | [] => None
      | (smallest, _) :: _ => Some smallest
      end
  end.

(** At most one configured tier contains the diameter, as non-overlapping
    ranges ensure. *)
Definition one_tier_contains (tiers : cement_ratios_t) (diameter_mm : float)
  : Prop :=
  forall c1 i1 c2 i2,
    In (c1, i1) tiers -> In (c2, i2) tiers ->
    in_diameter_range i1 diameter_mm = true ->
    in_diameter_range i2 diameter_mm = true ->
    c1 = c2.

(** A run ends in a detection miss on a frame: no rebar, or no section. *)
Definition detection_miss (e : env) (frame : picture) : Prop :=
  rebar_model e frame = [] \/ section_model e frame = [].

(** The stores a run of the device can hold: the initial one, and any one
    left by update_api_data, its only writer. *)
Inductive published : latest_analysis_t -> Prop :=
| published_init : published latest_analysis0
| published_update (e : env) (self : app) (la : latest_analysis_t) :
    published la -> published (update_api_data e self la).

End Spec.

Module Samples.

Import Master.

(** Tiers whose smallest bracket is not the one named "small". *)
Definition tiers_with_tiny : cement_ratios_t :=
  [ ("tiny",   RatioInfo 1 1 2 (Some (1, 6)%float));
    ("small",  RatioInfo 1 2 3 (Some (6, 12)%float));
    ("medium", RatioInfo 1 2 4 (Some (12, 20)%float)) ].

(** Tiers listed widest first, with overlapping brackets. *)
Definition tiers_overlapping : cement_ratios_t :=
  [ ("wide",  RatioInfo 1 3 5 (Some (10, 50)%float));
    ("small", RatioInfo 1 2 3 (Some (6, 12)%float)) ].

Definition box1 : bbox_t := BBox 10 10 30 50.
Definition box2 : bbox_t := BBox 40 10 70 60.
Definition unit_box : bbox_t := BBox 0 0 1 1.

(** The section record of [box1] at score 0.91 under the default tiers. *)
Definition record1 : section_result :=
  {| section_id := 1; size_category := "small"; diameter_mm_r := 2%float;
     confidence := 0.91%float; width_cm_r := 2%float; length_cm_r := 4%float;
     height_cm_r := 2%float; volume_cc_r := 16%float;
     cement_ratio := 1; sand_ratio := 2; aggregate_ratio := 3;
     bbox := box1 |}.

Definition env0 : env :=
  {| rebar_model := fun _ => [Detection (BBox 5 5 100 200) 0.91%float];
     section_model :=
       fun _ => [Detection box1 0.9%float; Detection box2 0.8%float];
     encode_jpeg_b64 := fun _ => Some "aW1hZ2U=";
     camera_opens := fun idx => 0 <=? idx;
     camera_read := Some (Frame 0);
     clock := "20240101-120000";
     thread_starts := true;
     str_to_float := fun _ => None;
     str_to_int := fun _ => None |}.

(** The application object at rest, with the default settings. *)
Definition app0 : app :=
  {| is_processing := false; camera_paused := false; captured_frame := None;
     current_results := []; result_image := None; current_timestamp := "";
     current_result_dir := ""; cement_ratios := default_cement_ratios;
     camera_index := 0; camera := Some (Camera 0 true);
     score_thresh_test := 0.7%float; camera_settings_file := Some 0;
     capture_btn_enabled := true; status_label := "Ready";
     results_text := [] |}.


(** An application object about to analyse a frame, with a single tier
    configured and none named "small". *)
Definition app_no_small : app :=
  {| is_processing := true; camera_paused := false;
     captured_frame := Some (Frame 0);
     current_results := []; result_image := None;
     current_timestamp := "20240101-120000";
     current_result_dir := "analysis_results/analysis_20240101-120000";
     cement_ratios := [("large", RatioInfo 1 3 5 (Some (20, 50)%float))];
     camera_index := 0; camera := Some (Camera 0 true);
     score_thresh_test := 0.7%float; camera_settings_file := Some 0;
     capture_btn_enabled := false; status_label := "Analyzing image...";
     results_text := [] |}.


(** A camera that sees a rebar in which no section is found. *)
Definition env_no_sections : env :=
  {| rebar_model := rebar_model env0;
     section_model := fun _ => [];
     encode_jpeg_b64 := encode_jpeg_b64 env0;
     camera_opens := camera_opens env0;
     camera_read := camera_read env0;
     clock := "20240101-120500";
     thread_starts := true;
     str_to_float := str_to_float env0;
     str_to_int := str_to_int env0 |}.

(** The store after a first successful run on [env0], and the application
    object as that run leaves it. *)
Definition after_run1 : app * latest_analysis_t :=
  capture_and_analyze env0 (app0, latest_analysis0).
Definition store1 : latest_analysis_t := snd after_run1.

(** The application object at the end of a later analysis with a single
    section, about to publish. *)
Definition app_run2 : app :=
  set_result_image (Some (Annotated (Frame 1) [box2]))
    (set_current_timestamp "20240101-121000"
       (set_current_result_dir "analysis_results/analysis_20240101-121000"
          (set_current_results
             [SectionData "20240101-121000" record1] app0))).

(** What the edge serves on /api/latest after the first run. *)
Definition body1 : latest_body := get_latest store1.

(** A cycle in which both probes and the data fetch succeed and the image
    fetch times out, and one in which every request succeeds. *)
Definition net_image_fails : App.cycle_net :=
  App.CycleNet (App.Reply 200 tt) (App.Reply 200 tt) (App.Reply 200 body1)
               App.Failed.
Definition net_ok : App.cycle_net :=
  App.CycleNet (App.Reply 200 tt) (App.Reply 200 tt) (App.Reply 200 body1)
               (App.Reply 200 (Some "aW1hZ2U=")).

(** A cycle whose probes succeed and whose data request times out. *)
Definition net_fetch_fails : App.cycle_net :=
  App.CycleNet (App.Reply 200 tt) (App.Reply 200 tt) App.Failed App.Failed.

(** A cycle whose status probe succeeds and whose data probe times out. *)
Definition net_latest_fails : App.cycle_net :=
  App.CycleNet (App.Reply 200 tt) App.Failed (App.Reply 200 body1)
               (App.Reply 200 (Some "aW1hZ2U=")).

(** A reader that starts after the second assignment of a publication and
    finishes before the third. *)
Definition torn_schedule : list turn :=
  [Writer; Writer; Reader; Reader; Reader; Reader; Reader;
   Writer; Writer; Writer].

End Samples.

(* ================================================================= *)
(** ** Tier classification *)

Import Master.

Lemma scan_categories_first (pre post : cement_ratios_t) (c : string)
    (info : ratio_info) (d : float) :
  in_diameter_range info d = true ->
  (forall t, In t pre -> in_diameter_range (snd t) d = false) ->
  scan_categories (pre ++ (c, info) :: post) d = Some c.
Proof.
  intros Hin Hpre. induction pre as [| [c' i'] pre IH]; simpl.
  - now rewrite Hin.
  - pose proof (Hpre (c', i') (or_introl eq_refl)) as E. simpl in E.
    rewrite E. apply IH. intros t Ht. apply Hpre. now right.
Qed.

Lemma scan_categories_none (tiers : cement_ratios_t) (d : float) :
  (forall t, In t tiers -> in_diameter_range (snd t) d = false) ->
  scan_categories tiers d = None.
Proof.
  induction tiers as [| [c i] tiers IH]; simpl; intros H; [reflexivity |].
  pose proof (H (c, i) (or_introl eq_refl)) as E. simpl in E.
  rewrite E. apply IH. intros t Ht. apply H. now right.
Qed.

Lemma scan_categories_sound (tiers : cement_ratios_t) (d : float) (c : string) :
  scan_categories tiers d = Some c ->
  exists info, In (c, info) tiers /\ in_diameter_range info d = true.
Proof.
  induction tiers as [| [c' i'] tiers IH]; simpl; [discriminate |].
  destruct (in_diameter_range i' d) eqn:E.
  - intros [= <-]. exists i'. split; [now left | exact E].
  - intros H. destruct (IH H) as (info & Hi & Hr).
    exists info. split; [now right | exact Hr].
Qed.

Lemma scan_categories_complete (tiers : cement_ratios_t) (d : float)
    (c : string) (info : ratio_info) :
  In (c, info) tiers -> in_diameter_range info d = true ->
  exists c', scan_categories tiers d = Some c'.
Proof.
  induction tiers as [| [c' i'] tiers IH]; simpl; [tauto |].
  intros [H | H] Hr.
  - injection H as -> ->. rewrite Hr. now exists c.
  - destruct (in_diameter_range i' d); [now exists c' | now apply IH].
Qed.

Lemma In_insert_by_min (t x : string * ratio_info) (l : cement_ratios_t) :
  In x (Spec.insert_by_min t l) <-> x = t \/ In x l.
Proof.
  induction l as [| u l IH]; simpl.
  - intuition congruence.
  - destruct (PrimFloat.leb (Spec.range_min t) (Spec.range_min u)); simpl.
    + intuition congruence.
    + rewrite IH. intuition congruence.
Qed.

Lemma In_sort_by_min (x : string * ratio_info) (l : cement_ratios_t) :
  In x (Spec.sort_by_min l) <-> In x l.
Proof.
  induction l as [| u l IH]; simpl; [tauto |].
  rewrite In_insert_by_min, IH. intuition congruence.
Qed.

(** On a diameter that at most one tier contains, scanning in configured
    order and scanning in ascending order find the same tier. *)
Lemma scan_order_irrelevant (tiers : cement_ratios_t) (d : float) (c : string) :
  Spec.one_tier_contains tiers d ->
  scan_categories tiers d = Some c ->
  Spec.classify_sorted tiers d = Some c.
Proof.
  intros Huniq Hscan.
  destruct (scan_categories_sound _ _ _ Hscan) as (info & Hin & Hr).
  assert (Hin' : In (c, info) (Spec.sort_by_min tiers))
    by exact (proj2 (In_sort_by_min _ _) Hin).
  destruct (scan_categories_complete _ _ _ _ Hin' Hr) as (c' & Hc').
  unfold Spec.classify_sorted. rewrite Hc'.
  destruct (scan_categories_sound _ _ _ Hc') as (info' & Hin2 & Hr2).
  apply (proj1 (In_sort_by_min _ _)) in Hin2.
  f_equal. exact (Huniq _ _ _ _ Hin2 Hin Hr2 Hr).
Qed.

(** C1 (as amended). The tier of a diameter is the first tier, in the order
    the tiers are configured, whose range [min, max) contains it; when no
    configured range contains it the tier named "small" is assigned. On a
    diameter that at most one tier contains (non-overlapping ranges) this is
    also the tier an ascending-by-minimum scan selects. With the default
    tiers small [6,12), medium [12,20), large [20,50): 11.99 is small, 12.0
    medium, 49.99 large, and 5.0 and 50.0 both small. *)
Theorem classify_size_first_configured_tier
    (tiers : cement_ratios_t) (d : float) :
  (forall pre c info post,
      tiers = pre ++ (c, info) :: post ->
      in_diameter_range info d = true ->
      (forall t, In t pre -> in_diameter_range (snd t) d = false) ->
      classify_size tiers d = c)
  /\ ((forall t, In t tiers -> in_diameter_range (snd t) d = false) ->
      classify_size tiers d = "small")
  /\ (Spec.one_tier_contains tiers d ->
      forall c, scan_categories tiers d = Some c ->
      classify_size tiers d = c /\ Spec.classify_sorted tiers d = Some c)
  /\ classify_size default_cement_ratios 11.99%float = "small"
  /\ classify_size default_cement_ratios 12%float = "medium"
  /\ classify_size default_cement_ratios 49.99%float = "large"
  /\ classify_size default_cement_ratios 5%float = "small"
  /\ classify_size default_cement_ratios 50%float = "small".
Proof.
  split; [| split; [| split]].
  - intros pre c info post -> Hin Hpre. unfold classify_size.
    now rewrite (scan_categories_first pre post c info d Hin Hpre).
  - intros Hnone. unfold classify_size.
    now rewrite (scan_categories_none tiers d Hnone).
  - intros Huniq c Hscan. split.
    + unfold classify_size. now rewrite Hscan.
    + now apply scan_order_irrelevant.
  - repeat split; reflexivity.
Qed.

Lemma classify_size_first_configured_tier_witness :
  classify_size default_cement_ratios 15%float = "medium"
  /\ classify_size default_cement_ratios 60%float = "small"
  /\ Spec.classify_sorted default_cement_ratios 15%float = Some "medium".
Proof.
  pose proof (classify_size_first_configured_tier default_cement_ratios 15%float)
    as (Hfirst & _ & Hsorted & _).
  pose proof (classify_size_first_configured_tier default_cement_ratios 60%float)
    as (_ & Hnone & _).
  split; [| split].
  - apply (Hfirst [("small", RatioInfo 1 2 3 (Some (6, 12)%float))] "medium"
             (RatioInfo 1 2 4 (Some (12, 20)%float))
             [("large", RatioInfo 1 3 5 (Some (20, 50)%float))]);
      [reflexivity | reflexivity |].
    intros t [<- | []]. reflexivity.
  - apply Hnone. intros t [<- | [<- | [<- | []]]]; reflexivity.
  - apply Hsorted; [| reflexivity].
    intros c1 i1 c2 i2 H1 H2 R1 R2.
    destruct H1 as [H1 | [H1 | [H1 | []]]];
      destruct H2 as [H2 | [H2 | [H2 | []]]];
      injection H1 as <- <-; injection H2 as <- <-;
      first [ reflexivity | discriminate R1 | discriminate R2 ].
Defined.

(** C1 as stated fails: with tiers tiny [1,6), small [6,12), medium [12,20)
    a 60 mm diameter, which no range contains, gets "small" where the
    smallest tier is "tiny"; and with overlapping tiers listed as
    wide [10,50), small [6,12) an 11 mm diameter gets "wide", the first in
    configured order, where the ascending scan gives "small". *)
Lemma classify_size_differs_from_sorted_scan :
  classify_size Samples.tiers_with_tiny (diameter_mm (BBox 0 0 600 700)) = "small"
  /\ Spec.classify_sorted Samples.tiers_with_tiny (diameter_mm (BBox 0 0 600 700))
     = Some "tiny"
  /\ classify_size Samples.tiers_overlapping (diameter_mm (BBox 0 0 110 300)) = "wide"
  /\ Spec.classify_sorted Samples.tiers_overlapping (diameter_mm (BBox 0 0 110 300))
     = Some "small".
Proof. repeat split; vm_compute; reflexivity. Qed.

(* ================================================================= *)
(** ** Measurements of a section *)

(** C5 (as amended). For every detected segment with pixel box
    (x1,y1,x2,y2): width_px = x2-x1, height_px = y2-y1 and diameter_px is
    their minimum; the dimensions are computed with the fixed factor 0.1
    per pixel (no configurable pixel_to_cm exists): length_cm =
    height_px * 0.1, width_cm = width_px * 0.1, height_cm = width_cm and
    volume_cc = length_cm * width_cm * height_cm; the segment record keeps
    each of the four rounded to two decimals, so its volume_cc is the
    rounded product of the unrounded dimensions. The box (10,10,30,50)
    yields width_px = 20, height_px = 40 and the record width_cm = 2.0,
    length_cm = 4.0, height_cm = 2.0, volume_cc = 16.0. *)
Theorem section_measurements :
  (forall (cr : cement_ratios_t) (i : nat) (d : detection) (r : section_result),
      make_section_result cr i d = Some r ->
      bbox r = det_box d
      /\ width_px (det_box d) = x2 (det_box d) - x1 (det_box d)
      /\ height_px (det_box d) = y2 (det_box d) - y1 (det_box d)
      /\ diameter_px (det_box d)
         = Z.min (width_px (det_box d)) (height_px (det_box d))
      /\ length_cm (det_box d)
         = PrimFloat.mul (PyFloat.of_int (height_px (det_box d))) 0.1%float
      /\ width_cm (det_box d)
         = PrimFloat.mul (PyFloat.of_int (width_px (det_box d))) 0.1%float
      /\ height_cm (det_box d) = width_cm (det_box d)
      /\ volume_cc (det_box d)
         = PrimFloat.mul
             (PrimFloat.mul (length_cm (det_box d)) (width_cm (det_box d)))
             (height_cm (det_box d))
      /\ length_cm_r r = PyFloat.round (length_cm (det_box d)) 2
      /\ width_cm_r r = PyFloat.round (width_cm (det_box d)) 2
      /\ height_cm_r r = PyFloat.round (height_cm (det_box d)) 2
      /\ volume_cc_r r = PyFloat.round (volume_cc (det_box d)) 2)
  /\ width_px Samples.box1 = 20
  /\ height_px Samples.box1 = 40
  /\ (forall (cr : cement_ratios_t) (i : nat) (score : float) (r : section_result),
         make_section_result cr i (Detection Samples.box1 score) = Some r ->
         width_cm_r r = 2%float /\ length_cm_r r = 4%float
         /\ height_cm_r r = 2%float /\ volume_cc_r r = 16%float).
Proof.
  assert (Hrec : forall cr i d r, make_section_result cr i d = Some r ->
            bbox r = det_box d
            /\ length_cm_r r = PyFloat.round (length_cm (det_box d)) 2
            /\ width_cm_r r = PyFloat.round (width_cm (det_box d)) 2
            /\ height_cm_r r = PyFloat.round (height_cm (det_box d)) 2
            /\ volume_cc_r r = PyFloat.round (volume_cc (det_box d)) 2).
  { intros cr i d r H. unfold make_section_result in H.
    destruct (dict_get _ cr); [| discriminate].
    injection H as <-. simpl. repeat split. }
  split; [| split; [| split]].
  - intros cr i d r H. destruct (Hrec cr i d r H) as (Hb & Hl & Hw & Hh & Hv).
    repeat split; assumption.
  - reflexivity.
  - reflexivity.
  - intros cr i score r H.
    destruct (Hrec cr i _ r H) as (_ & Hl & Hw & Hh & Hv).
    rewrite Hl, Hw, Hh, Hv. repeat split; vm_compute; reflexivity.
Qed.

Lemma section_measurements_witness :
  make_section_result default_cement_ratios 0
    (Detection Samples.box1 0.91%float) = Some Samples.record1
  /\ volume_cc_r Samples.record1 = 16%float.
Proof.
  assert (H : make_section_result default_cement_ratios 0
                (Detection Samples.box1 0.91%float) = Some Samples.record1)
    by reflexivity.
  split; [exact H |].
  exact (proj2 (proj2 (proj2
           (proj2 (proj2 (proj2 section_measurements))
              default_cement_ratios 0%nat 0.91%float Samples.record1 H)))).
Defined.

(** C5 as stated fails: for the box (10,10,30,50) the record holds
    width_cm = 2.0, length_cm = 4.0, height_cm = 2.0 and volume_cc = 16.0,
    not 0.2, 0.4, 0.2 and 0.016; and for the box (0,0,1,1), whose sides
    are recorded as 0.1 each, the recorded volume_cc is 0.0 and not the
    product of the recorded sides. *)
Lemma section_record_differs_from_stated_values :
  (exists r,
      make_section_result default_cement_ratios 0
        (Detection Samples.box1 0.91%float) = Some r
      /\ width_cm_r r = 2%float /\ PrimFloat.eqb (width_cm_r r) 0.2%float = false
      /\ length_cm_r r = 4%float /\ PrimFloat.eqb (length_cm_r r) 0.4%float = false
      /\ height_cm_r r = 2%float /\ PrimFloat.eqb (height_cm_r r) 0.2%float = false
      /\ volume_cc_r r = 16%float
      /\ PrimFloat.eqb (volume_cc_r r) 0.016%float = false)
  /\ (exists r,
      make_section_result default_cement_ratios 0
        (Detection Samples.unit_box 0.91%float) = Some r
      /\ volume_cc_r r = 0%float
      /\ PrimFloat.eqb (volume_cc_r r)
           (PrimFloat.mul (PrimFloat.mul (length_cm_r r) (width_cm_r r))
                          (height_cm_r r)) = false).
Proof.
  split; eexists; (split; [vm_compute; reflexivity |]);
    repeat split; vm_compute; reflexivity.
Qed.

(* ================================================================= *)
(** ** The published store *)

Lemma api_loop_acc (results : list section_data) (segs : list segment)
    (total : float) :
  api_loop results segs total
  = (segs ++ map api_segment results,
     fold_left PrimFloat.add (map seg_volume_cc (map api_segment results)) total).
Proof.
  revert segs total. induction results as [| r results IH]; intros segs total.
  - simpl. now rewrite app_nil_r.
  - simpl. rewrite IH, <- app_assoc. reflexivity.
Qed.

Lemma update_api_data_no_results (e : env) (self : app) (la : latest_analysis_t) :
  current_results self = [] -> update_api_data e self la = la.
Proof.
  intros H. unfold update_api_data, update_api_data_writes. now rewrite H.
Qed.

(** What a publication leaves in the store. *)
Lemma update_api_data_fields (e : env) (self : app) (la : latest_analysis_t) :
  current_results self <> [] ->
  timestamp (update_api_data e self la) = Some (current_timestamp self)
  /\ segments (update_api_data e self la)
     = map api_segment (current_results self)
  /\ total_volume (update_api_data e self la)
     = PyFloat.sum (map seg_volume_cc (map api_segment (current_results self)))
  /\ image (update_api_data e self la)
     = match result_image self with
       | Some img =>
           match encode_jpeg_b64 e img with
           | Some b => Some b
           | None => image la
           end
       | None => image la
       end.
Proof.
  intros Hne. unfold update_api_data, update_api_data_writes.
  destruct (current_results self) as [| r rs] eqn:E; [contradiction |].
  rewrite api_loop_acc.
  destruct (result_image self) as [img |];
    [destruct (encode_jpeg_b64 e img) |]; simpl; repeat split.
Qed.

(** A trigger carried to its end leaves the store as it was or as one
    publication makes it. *)
Lemma detect_rebar_store (e : env) (frame : picture) (self : app)
    (la : latest_analysis_t) :
  snd (state_of (detect_rebar e frame (self, la))) = la
  \/ exists s, snd (state_of (detect_rebar e frame (self, la)))
               = update_api_data e s la.
Proof.
  unfold detect_rebar.
  destruct (rebar_model e frame) as [| d0 ds0]; [now left |].
  unfold detect_sections. cbv zeta.
  destruct (section_model e frame) as [| d1 ds1]; [now left |].
  destruct (sections_loop _ _ _) as [s1 | s1]; [| now left].
  right. eexists. reflexivity.
Qed.

Lemma capture_and_analyze_store (e : env) (self : app) (la : latest_analysis_t) :
  snd (capture_and_analyze e (self, la)) = la
  \/ exists s, snd (capture_and_analyze e (self, la)) = update_api_data e s la.
Proof.
  unfold capture_and_analyze, capture_image. cbv beta iota zeta.
  destruct (is_processing self); [now left |]. cbv beta iota zeta.
  destruct (_do_capture e _) as [s2 [|]]; [| now left].
  unfold _do_analyze. cbv beta iota zeta.
  destruct (captured_frame s2) as [frame |]; [| now left].
  pose proof (detect_rebar_store e frame s2 la) as H.
  destruct (detect_rebar e frame (s2, la)) as [[s l] | [s l]]; exact H.
Qed.

Lemma capture_and_analyze_published (e : env) (self : app)
    (la : latest_analysis_t) :
  Spec.published la -> Spec.published (snd (capture_and_analyze e (self, la))).
Proof.
  intros Hp.
  destruct (capture_and_analyze_store e self la) as [-> | [s ->]];
    [exact Hp | now apply Spec.published_update].
Qed.

(** C6. In every store the device can hold, total_volume is the sum of the
    volume_cc of its segments: the float sum taken in segment order from 0,
    which is how the total is accumulated, so the two differ by nothing. *)
Theorem total_volume_is_sum_of_segments (la : latest_analysis_t) :
  Spec.published la ->
  total_volume la = PyFloat.sum (map seg_volume_cc (segments la)).
Proof.
  induction 1 as [| e self la Hp IH].
  - reflexivity.
  - destruct (current_results self) as [| r rs] eqn:E.
    + now rewrite update_api_data_no_results.
    + assert (Hne : current_results self <> []) by (rewrite E; discriminate).
      destruct (update_api_data_fields e self la Hne) as (_ & Hs & Ht & _).
      now rewrite Hs, Ht.
Qed.

Lemma total_volume_is_sum_of_segments_witness :
  total_volume (update_api_data Samples.env0 Samples.app_run2 latest_analysis0)
  = PyFloat.sum
      (map seg_volume_cc
         (segments (update_api_data Samples.env0 Samples.app_run2 latest_analysis0))).
Proof.
  apply total_volume_is_sum_of_segments.
  apply Spec.published_update, Spec.published_init.
Defined.

(* ================================================================= *)
(** ** Detection misses *)

Lemma detect_rebar_miss (e : env) (frame : picture) (self : app)
    (la : latest_analysis_t) :
  Spec.detection_miss e frame ->
  exists s, detect_rebar e frame (self, la) = Ok (s, la).
Proof.
  intros [H | H]; unfold detect_rebar.
  - rewrite H. eexists. reflexivity.
  - destruct (rebar_model e frame); [eexists; reflexivity |].
    unfold detect_sections. rewrite H. eexists. reflexivity.
Qed.

Lemma do_analyze_miss (e : env) (self : app) (la : latest_analysis_t) :
  (forall frame, captured_frame self = Some frame -> Spec.detection_miss e frame) ->
  snd (_do_analyze e (self, la)) = la.
Proof.
  intros Hmiss. unfold _do_analyze. cbv beta iota zeta.
  destruct (captured_frame self) as [frame |] eqn:E; [| reflexivity].
  destruct (detect_rebar_miss e frame self la (Hmiss frame eq_refl)) as [s Hs].
  rewrite Hs. reflexivity.
Qed.

Lemma do_capture_scheduled (e : env) (self s : app) :
  _do_capture e self = (s, true) ->
  exists frame, camera_read e = Some frame /\ captured_frame s = Some frame.
Proof.
  unfold _do_capture.
  destruct (if camera_ready (set_current_results [] self)
            then Ok (set_current_results [] self)
            else initialize_camera e (set_current_results [] self)) as [s0 | s0];
    [| discriminate].
  destruct (camera_read e) as [frame |]; [| discriminate].
  intros [= <-]. exists frame. split; reflexivity.
Qed.

(** C10. A run that ends with no rebar detected or no section detected
    leaves the published analysis state as it was (timestamp, segments,
    total_volume and image included): both the analysis of a captured
    frame and a whole trigger, from the button or the API, carried to its
    end. *)
Theorem detection_miss_leaves_store_unchanged
    (e : env) (self : app) (la : latest_analysis_t) :
  ((forall frame, captured_frame self = Some frame ->
                  Spec.detection_miss e frame) ->
   snd (_do_analyze e (self, la)) = la)
  /\ ((forall frame, camera_read e = Some frame ->
                     Spec.detection_miss e frame) ->
      snd (capture_and_analyze e (self, la)) = la
      /\ get_latest (snd (capture_and_analyze e (self, la))) = get_latest la).
Proof.
  split; [apply do_analyze_miss |].
  intros Hmiss.
  assert (H : snd (capture_and_analyze e (self, la)) = la).
  { unfold capture_and_analyze, capture_image. cbv beta iota zeta.
    destruct (is_processing self); [reflexivity |].
    cbv beta iota zeta.
    destruct (_do_capture e _) as [s2 [|]] eqn:D; [| reflexivity].
    destruct (do_capture_scheduled _ _ _ D) as (frame & Hread & Hframe).
    apply do_analyze_miss. intros f Hf. rewrite Hframe in Hf.
    injection Hf as <-. now apply Hmiss. }
  split; [exact H | now rewrite H].
Qed.

Lemma detection_miss_leaves_store_unchanged_witness :
  snd (capture_and_analyze Samples.env_no_sections
         (Samples.app0, Samples.store1)) = Samples.store1.
Proof.
  apply (proj2 (detection_miss_leaves_store_unchanged
                  Samples.env_no_sections Samples.app0 Samples.store1)).
  intros frame _. right. reflexivity.
Defined.

(* ================================================================= *)
(** ** Reading the store *)

Lemma published_without_timestamp (la : latest_analysis_t) :
  Spec.published la -> timestamp la = None -> la = latest_analysis0.
Proof.
  induction 1 as [| e self la Hp IH]; [reflexivity |].
  destruct (current_results self) as [| r rs] eqn:E.
  - rewrite update_api_data_no_results by assumption. exact IH.
  - assert (Hne : current_results self <> []) by (rewrite E; discriminate).
    destruct (update_api_data_fields e self la Hne) as (Ht & _).
    rewrite Ht. discriminate.
Qed.

(** C9. Before the first publication (a store with no timestamp, which for
    a store the device can hold is the initial one) /api/latest answers
    with the no-data body: timestamp null, no segments, total volume zero,
    image_available false; and /api/latest_image answers 404 whenever the
    store holds no image. *)
Theorem latest_before_first_publication (la : latest_analysis_t) :
  (timestamp la = None ->
   get_latest la = no_data
   /\ lb_timestamp (get_latest la) = None
   /\ lb_segments (get_latest la) = []
   /\ lb_total_volume (get_latest la) = 0%float
   /\ lb_image_available (get_latest la) = false)
  /\ (image la = None ->
      get_latest_image la = Http 404 (ErrorBody "No image available"))
  /\ (Spec.published la -> timestamp la = None ->
      la = latest_analysis0
      /\ status_code (get_latest_image la) = 404).
Proof.
  split; [| split].
  - intros H. unfold get_latest. rewrite H. repeat split.
  - intros H. unfold get_latest_image. now rewrite H.
  - intros Hp Ht. rewrite (published_without_timestamp la Hp Ht).
    split; reflexivity.
Qed.

Lemma latest_before_first_publication_witness :
  get_latest latest_analysis0 = no_data
  /\ get_latest_image latest_analysis0 = Http 404 (ErrorBody "No image available")
  /\ status_code (get_latest_image latest_analysis0) = 404.
Proof.
  pose proof (latest_before_first_publication latest_analysis0) as (H1 & H2 & H3).
  split; [| split].
  - exact (proj1 (H1 eq_refl)).
  - exact (H2 eq_refl).
  - exact (proj2 (H3 Spec.published_init eq_refl)).
Defined.

(* ================================================================= *)
(** ** Readers against a publication in progress *)

Lemma reader_steps_returned (n : nat) (la : latest_analysis_t) (b : latest_body) :
  reader_steps n la (Returned b) = Returned b.
Proof. induction n as [| n IH]; simpl; [reflexivity | exact IH]. Qed.

(** Five reads of a store at rest are the handler. *)
Lemma reader_steps_get_latest (n : nat) (la : latest_analysis_t) :
  (5 <= n)%nat -> reader_steps n la AtTest = Returned (get_latest la).
Proof.
  intros Hn.
  do 5 (destruct n as [| n]; [lia |]).
  unfold get_latest. simpl.
  destruct (timestamp la) as [t |] eqn:E; simpl; rewrite ?E;
    apply reader_steps_returned.
Qed.

Lemma run_schedule_app (a b : list turn) (c : conc) :
  run_schedule (a ++ b) c = run_schedule b (run_schedule a c).
Proof. unfold run_schedule. apply fold_left_app. Qed.

Lemma run_readers (n : nat) (la : latest_analysis_t) (ws : list store_write)
    (r : reader) :
  run_schedule (List.repeat Reader n) (Conc la ws r)
  = Conc la ws (reader_steps n la r).
Proof.
  revert r. induction n as [| n IH]; intros r; [reflexivity |].
  simpl. apply IH.
Qed.

Lemma run_writers_idle (m : nat) (la : latest_analysis_t) (r : reader) :
  run_schedule (List.repeat Writer m) (Conc la [] r) = Conc la [] r.
Proof. induction m as [| m IH]; [reflexivity | simpl; exact IH]. Qed.

Lemma run_writers (ws : list store_write) (m : nat) (la : latest_analysis_t)
    (r : reader) :
  (List.length ws <= m)%nat ->
  run_schedule (List.repeat Writer m) (Conc la ws r)
  = Conc (fold_left apply_write ws la) [] r.
Proof.
  revert m la. induction ws as [| w ws IH]; intros m la Hm.
  - apply run_writers_idle.
  - destruct m as [| m]; [simpl in Hm; lia |].
    simpl. apply IH. simpl in Hm. lia.
Qed.

(** C4 (as amended). A publication is a sequence of separate assignments
    to the fields of the shared record (image, timestamp, segments,
    total_volume, image_path) with no lock. A reader of /api/latest whose
    reads all come before the first assignment observes the old snapshot
    whole, and one whose reads all come after the last assignment observes
    the new snapshot whole; nothing is promised to a reader that runs
    between the first and the last assignment. *)
Theorem get_latest_outside_publication
    (e : env) (self : app) (la : latest_analysis_t) (n m : nat) :
  (5 <= n)%nat ->
  (List.length (update_api_data_writes e self) <= m)%nat ->
  rd (run_schedule (List.repeat Reader n ++ List.repeat Writer m)
        (Conc la (update_api_data_writes e self) AtTest))
  = Returned (get_latest la)
  /\ store (run_schedule (List.repeat Reader n ++ List.repeat Writer m)
              (Conc la (update_api_data_writes e self) AtTest))
     = update_api_data e self la
  /\ rd (run_schedule (List.repeat Writer m ++ List.repeat Reader n)
           (Conc la (update_api_data_writes e self) AtTest))
     = Returned (get_latest (update_api_data e self la)).
Proof.
  intros Hn Hm. rewrite !run_schedule_app.
  rewrite run_readers, !(run_writers _ m) by exact Hm.
  rewrite run_readers. simpl.
  rewrite !reader_steps_get_latest by exact Hn.
  repeat split.
Qed.

Lemma get_latest_outside_publication_witness :
  rd (run_schedule (List.repeat Reader 5 ++ List.repeat Writer 5)
        (Conc Samples.store1
           (update_api_data_writes Samples.env0 Samples.app_run2) AtTest))
  = Returned (get_latest Samples.store1)
  /\ rd (run_schedule (List.repeat Writer 5 ++ List.repeat Reader 5)
           (Conc Samples.store1
              (update_api_data_writes Samples.env0 Samples.app_run2) AtTest))
     = Returned
         (get_latest
            (update_api_data Samples.env0 Samples.app_run2 Samples.store1)).
Proof.
  assert (Hn : (5 <= 5)%nat) by lia.
  assert (Hm : (List.length
                  (update_api_data_writes Samples.env0 Samples.app_run2)
                <= 5)%nat) by (vm_compute; lia).
  destruct (get_latest_outside_publication Samples.env0 Samples.app_run2
              Samples.store1 5 5 Hn Hm) as (H1 & _ & H3).
  split; [exact H1 | exact H3].
Defined.

(** C4 as stated fails: a reader that runs after the image and timestamp
    of a new publication are assigned and before its segments are sees the
    new timestamp with the old segments and the old total. *)
Lemma get_latest_torn_read :
  exists b,
    rd (run_schedule Samples.torn_schedule
          (Conc Samples.store1
             (update_api_data_writes Samples.env0 Samples.app_run2) AtTest))
    = Returned b
    /\ store (run_schedule Samples.torn_schedule
                (Conc Samples.store1
                   (update_api_data_writes Samples.env0 Samples.app_run2) AtTest))
       = update_api_data Samples.env0 Samples.app_run2 Samples.store1
    /\ lb_timestamp b
       = timestamp (update_api_data Samples.env0 Samples.app_run2 Samples.store1)
    /\ lb_segments b = segments Samples.store1
    /\ lb_total_volume b = total_volume Samples.store1
    /\ lb_timestamp b <> timestamp Samples.store1
    /\ lb_segments b
       <> segments (update_api_data Samples.env0 Samples.app_run2 Samples.store1).
Proof.
  eexists. split; [vm_compute; reflexivity |].
  repeat split; try (vm_compute; reflexivity); vm_compute; discriminate.
Qed.

(* ================================================================= *)
(** ** The capture trigger *)




(* ================================================================= *)
(** ** Configuration updates *)

Lemma initialize_camera_index (e : env) (self : app) :
  camera_index
    (match initialize_camera e self with Ok s => s | Raised s => s end)
  = camera_index self.
Proof.
  unfold initialize_camera. simpl.
  destruct (camera_opens e (camera_index self)); reflexivity.
Qed.

Lemma restart_camera_index (e : env) (self : app) :
  camera_index (restart_camera e self) = camera_index self.
Proof.
  unfold restart_camera.
  pose proof (initialize_camera_index e
                (set_camera None (set_status_label "Restarting camera..." self)))
    as H.
  destruct (initialize_camera e _); exact H.
Qed.

Lemma start_preview_index (e : env) (self : app) :
  camera_index (start_preview e self) = camera_index self.
Proof.
  unfold start_preview. destruct (camera_ready self); [reflexivity |].
  pose proof (initialize_camera_index e self) as H.
  destruct (initialize_camera e self) as [s | s]; [exact H |].
  now rewrite restart_camera_index.
Qed.

Lemma update_camera_index_stores (e : env) (config_data : list (string * json))
    (self : app) (w : json) (idx : Z) :
  dict_get "external_camera_index" config_data = Some w ->
  py_int e w = Some idx ->
  camera_index
    (match update_camera_index e config_data self with
     | Ok s => s
     | Raised s => s
     end) = idx.
Proof.
  intros Hw Hi. unfold update_camera_index. rewrite Hw, Hi.
  destruct (camera_index self =? idx) eqn:E; [now apply Z.eqb_eq |].
  simpl camera. destruct (camera self); [| reflexivity].
  pose proof (initialize_camera_index e
                (set_camera None
                   (save_camera_settings (set_camera_index idx self)))) as H.
  destruct (initialize_camera e _) as [s | s]; [| exact H].
  now rewrite start_preview_index.
Qed.

(** C3 (as amended). A configuration update is not validated against any
    range. A detection_threshold that [float()] accepts is stored as it
    is, whatever happens to the rest of the request, and with no camera
    index in the request the update is answered 200:
    set_config({detection_threshold: 1.5}) is accepted and the threshold
    becomes 1.5. A camera index that [int()] accepts, negative or not, is
    stored, and when it differs from the current one it is written to the
    settings file, with or without a threshold in the request. The update
    is answered 500 exactly when a value sent cannot be converted, or a
    changed camera index cannot be applied to the camera session (no
    session is there to release, or the camera does not open at the new
    index); otherwise it is answered 200. What was assigned before the
    error stays assigned; a threshold that does not convert leaves
    everything as it was. *)
Theorem update_config_applies_unvalidated
    (e : env) (config_data : list (string * json)) (self : app) :
  exists r s,
    update_config e config_data (Some self) = (r, Some s)
    /\ (forall v f, dict_get "detection_threshold" config_data = Some v ->
                    py_float e v = Some f ->
                    score_thresh_test s = f)
    /\ (dict_get "detection_threshold" config_data = None ->
        score_thresh_test s = score_thresh_test self)
    /\ (forall v, dict_get "detection_threshold" config_data = Some v ->
                  py_float e v = None ->
                  s = self)
    /\ (forall w idx,
           (forall v, dict_get "detection_threshold" config_data = Some v ->
                      py_float e v <> None) ->
           dict_get "external_camera_index" config_data = Some w ->
           py_int e w = Some idx ->
           camera_index s = idx
           /\ (camera_index self <> idx -> camera_settings_file s = Some idx))
    /\ (dict_get "external_camera_index" config_data = None ->
        camera_index s = camera_index self /\ camera s = camera self)
    /\ (forall w, dict_get "external_camera_index" config_data = Some w ->
                  py_int e w = None ->
                  camera_index s = camera_index self /\ camera s = camera self)
    /\ (r = Http 200 (MessageBody "Configuration updated")
        \/ r = Http 500 (ErrorBody "exception"))
    /\ (status_code r = 500
        <-> (exists v, dict_get "detection_threshold" config_data = Some v
                       /\ py_float e v = None)
            \/ (exists w, dict_get "external_camera_index" config_data = Some w
                          /\ py_int e w = None)
            \/ (exists w idx,
                   dict_get "external_camera_index" config_data = Some w
                   /\ py_int e w = Some idx
                   /\ camera_index self <> idx
                   /\ (camera self = None \/ camera_opens e idx = false)))
    /\ (forall v f, dict_get "detection_threshold" config_data = Some v ->
                    py_float e v = Some f ->
                    dict_get "external_camera_index" config_data = None ->
                    r = Http 200 (MessageBody "Configuration updated")
                    /\ s = set_score_thresh_test f self).
Proof.
  unfold update_config, update_threshold, update_camera_index.
  destruct (dict_get "detection_threshold" config_data) as [v |] eqn:Ev;
    [destruct (py_float e v) as [f |] eqn:Ef |];
    (destruct (dict_get "external_camera_index" config_data) as [w |] eqn:Ew;
     [destruct (py_int e w) as [idx |] eqn:Ei |]);
    simpl camera_index; simpl camera;
    try (destruct (camera_index self =? idx) eqn:E;
         [apply Z.eqb_eq in E | apply Z.eqb_neq in E;
          destruct (camera self) as [c |] eqn:C;
          [unfold initialize_camera; simpl;
           destruct (camera_opens e idx) eqn:O;
           [unfold start_preview, camera_ready; simpl |] |]]);
    (eexists; eexists; split; [reflexivity |]);
    simpl;
    repeat match goal with |- _ /\ _ => split end;
    try (intros; simpl in *; congruence);
    try (intros; simpl in *; split; congruence);
    try (left; reflexivity); try (right; reflexivity);
    try (intros w0 idx0 Hok ? ?; exfalso; eapply Hok;
         [reflexivity | eassumption]);
    try (split;
         [ intros H; try discriminate H;
           solve [ left; eauto
                 | right; left; eauto
                 | right; right; eauto 10 ]
         | intros [(v0 & H1 & H2) | [(w0 & H1 & H2)
                  | (w0 & i0 & H1 & H2 & H3 & [H4 | H4])]];
           try reflexivity; simpl in *; congruence ]).
Qed.

Lemma update_config_applies_unvalidated_witness :
  exists r s,
    update_config Samples.env0 [("external_camera_index", JInt (-1))]
      (Some Samples.app0) = (r, Some s)
    /\ camera_index s = -1
    /\ camera_settings_file s = Some (-1)
    /\ score_thresh_test s = score_thresh_test Samples.app0
    /\ status_code r = 500.
Proof.
  destruct (update_config_applies_unvalidated Samples.env0
              [("external_camera_index", JInt (-1))] Samples.app0)
    as (r & s & Hrun & _ & Hthr & _ & Hidx & _ & _ & _ & Hst & _).
  assert (Hok : forall v,
             dict_get "detection_threshold"
               [("external_camera_index", JInt (-1))] = Some v ->
             py_float Samples.env0 v <> None)
    by (intros v H; discriminate H).
  assert (Hne : camera_index Samples.app0 <> -1)
    by (intros H; discriminate H).
  destruct (Hidx (JInt (-1)) (-1) Hok eq_refl eq_refl) as (H1 & H2).
  exists r, s. split; [exact Hrun |]. split; [exact H1 |].
  split; [exact (H2 Hne) |]. split; [exact (Hthr eq_refl) |].
  apply (proj2 Hst). right. right. exists (JInt (-1)), (-1).
  split; [reflexivity |]. split; [reflexivity |]. split; [exact Hne |].
  right. reflexivity.
Defined.

(** C3 as stated fails: set_config({detection_threshold: 1.5}) is answered
    200 and the threshold, 0.7 before, is 1.5 afterwards; and
    set_config({external_camera_index: -1}), answered 500 here because
    camera -1 does not open, has by then stored -1 as the camera index and
    written it to the settings file. *)
Lemma update_config_accepts_invalid_values :
  score_thresh_test Samples.app0 = 0.7%float
  /\ PrimFloat.ltb 1 1.5 = true
  /\ update_config Samples.env0 [("detection_threshold", JFloat 1.5%float)]
       (Some Samples.app0)
     = (Http 200 (MessageBody "Configuration updated"),
        Some (set_score_thresh_test 1.5%float Samples.app0))
  /\ (exists s,
        update_config Samples.env0 [("external_camera_index", JInt (-1))]
          (Some Samples.app0)
        = (Http 500 (ErrorBody "exception"), Some s)
        /\ camera_index Samples.app0 = 0
        /\ camera_index s = -1
        /\ camera_settings_file s = Some (-1)).
Proof.
  split; [reflexivity |]. split; [reflexivity |]. split; [reflexivity |].
  eexists. split; [vm_compute; reflexivity |]. repeat split.
Qed.

(* ================================================================= *)
(** ** The relay: connectivity *)

Lemma check_connection_both {A B : Type} (s : App.reply A) (l : App.reply B) :
  App.check_connection s l = App.probe_ok s && App.probe_ok l.
Proof.
  unfold App.check_connection, App.probe_ok.
  destruct (App.reply_code s) as [c |]; [| reflexivity].
  destruct (c =? 200); [| reflexivity].
  destruct (App.reply_code l) as [c' |]; [| reflexivity].
  destruct (c' =? 200); reflexivity.
Qed.

Lemma sync_data_connected (net : App.cycle_net) (ld : App.latest_data_t) :
  App.connected (fst (App.sync_data net ld)) = App.connected ld.
Proof.
  unfold App.sync_data.
  destruct (App.latest_fetch net) as [| code | code data]; [reflexivity | |].
  - destruct (code =? 200); reflexivity.
  - destruct (code =? 200); [| reflexivity].
    destruct (App.option_string_eqb _ _); [reflexivity |].
    destruct (lb_image_available data); [| reflexivity].
    destruct (App.image_fetch net) as [| icode | icode img]; [reflexivity | |].
    + destruct (icode =? 200); reflexivity.
    + destruct (icode =? 200); reflexivity.
Qed.

Lemma poll_cycle_connected (net : App.cycle_net) (ld : App.latest_data_t) :
  App.connected (fst (App.poll_cycle net ld))
  = App.check_connection (App.status_probe net) (App.latest_probe net).
Proof.
  unfold App.poll_cycle. cbv zeta.
  destruct (App.check_connection _ _) eqn:E; [| reflexivity].
  pose proof (sync_data_connected net (App.set_connected true ld)) as H.
  destruct (App.sync_data net (App.set_connected true ld)) as [ld2 evs].
  exact H.
Qed.

(** C8. In every poll cycle the connected flag is true exactly when the
    status probe and the data probe of the cycle both succeed (each
    returns, with status 200); a timeout, an exception or another status
    in either makes it false. In particular a status probe that succeeds,
    followed by a data probe that fails, leaves connected false. *)
Theorem connected_iff_both_probes_succeed
    (net : App.cycle_net) (ld : App.latest_data_t) :
  (App.connected (fst (App.poll_cycle net ld)) = true
   <-> App.probe_ok (App.status_probe net) = true
       /\ App.probe_ok (App.latest_probe net) = true)
  /\ (App.probe_ok (App.status_probe net) = true ->
      App.probe_ok (App.latest_probe net) = false ->
      App.connected (fst (App.poll_cycle net ld)) = false).
Proof.
  rewrite poll_cycle_connected, check_connection_both. split.
  - apply andb_true_iff.
  - intros -> ->. reflexivity.
Qed.

Lemma connected_iff_both_probes_succeed_witness :
  App.connected (fst (App.poll_cycle Samples.net_latest_fails App.latest_data0))
  = false.
Proof.
  apply (proj2 (connected_iff_both_probes_succeed Samples.net_latest_fails
                  App.latest_data0)); reflexivity.
Defined.

(* ================================================================= *)
(** ** The relay: data sync *)

Lemma option_string_eqb_eq (a b : option string) :
  App.option_string_eqb a b = true <-> a = b.
Proof.
  destruct a as [x |], b as [y |]; simpl; try (split; congruence).
  rewrite String.eqb_eq. split; congruence.
Qed.

Lemma count_new_data_app (a b : list App.event) :
  App.count_new_data (a ++ b)
  = (App.count_new_data a + App.count_new_data b)%nat.
Proof.
  unfold App.count_new_data. now rewrite filter_app, length_app.
Qed.

(** The events of a connected cycle are those of its data sync, after at
    most one connection_status. *)
Lemma poll_cycle_connected_events (net : App.cycle_net) (ld : App.latest_data_t) :
  App.check_connection (App.status_probe net) (App.latest_probe net) = true ->
  fst (App.poll_cycle net ld)
  = fst (App.sync_data net (App.set_connected true ld))
  /\ App.count_new_data (snd (App.poll_cycle net ld))
     = App.count_new_data (snd (App.sync_data net (App.set_connected true ld))).
Proof.
  intros Hc. unfold App.poll_cycle. cbv zeta. rewrite Hc.
  destruct (App.sync_data net (App.set_connected true ld)) as [ld2 evs].
  split; [reflexivity |]. simpl snd. rewrite count_new_data_app.
  destruct (App.connected ld); reflexivity.
Qed.

(** An unchanged timestamp: nothing is cached and no new_data is pushed. *)
Lemma poll_cycle_same_timestamp (net : App.cycle_net) (ld : App.latest_data_t)
    (data : latest_body) :
  App.check_connection (App.status_probe net) (App.latest_probe net) = true ->
  App.latest_fetch net = App.Reply 200 data ->
  lb_timestamp data = App.last_update ld ->
  fst (App.poll_cycle net ld) = App.set_connected true ld
  /\ App.count_new_data (snd (App.poll_cycle net ld)) = 0%nat.
Proof.
  intros Hc Hf Ht.
  destruct (poll_cycle_connected_events net ld Hc) as (-> & ->).
  unfold App.sync_data. rewrite Hf. simpl.
  rewrite (proj2 (option_string_eqb_eq _ _) Ht). split; reflexivity.
Qed.


(** C7, at its failing input. First cycle: the cached timestamp is empty,
    /api/latest serves a snapshot with image_available set, and the image
    request times out; second cycle: the same snapshot, every request
    succeeds. The first cycle caches the timestamp and raises before it
    pushes new_data; the second finds the timestamp unchanged. The two
    polls push no new_data at all, where two polls in which the image
    request succeeds push exactly one. *)
Theorem image_failure_loses_new_data :
  App.count_new_data
    (snd (App.get_raspi_data [Samples.net_image_fails; Samples.net_ok]
            App.latest_data0)) = 0%nat
  /\ App.last_update
       (fst (App.get_raspi_data [Samples.net_image_fails; Samples.net_ok]
               App.latest_data0)) = Some "20240101-120000"
  /\ App.last_update
       (fst (App.poll_cycle Samples.net_image_fails App.latest_data0))
     = Some "20240101-120000"
  /\ snd (App.poll_cycle Samples.net_image_fails App.latest_data0)
     = [App.connection_status true; App.connection_error;
        App.connection_status false]
  /\ App.last_image
       (fst (App.get_raspi_data [Samples.net_image_fails; Samples.net_ok]
               App.latest_data0)) = None
  /\ App.count_new_data
       (snd (App.get_raspi_data [Samples.net_ok; Samples.net_ok]
               App.latest_data0)) = 1%nat.
Proof. repeat split; vm_compute; reflexivity. Qed.

(* ================================================================= *)
(** ** More of the edge: runs from trigger to publication *)






(* ================================================================= *)
(** ** More of the edge: the tier attached to a section *)

Lemma scan_categories_key (cr : cement_ratios_t) (d : float) (c : string) :
  scan_categories cr d = Some c -> dict_get c cr <> None.
Proof.
  induction cr as [| [c' i'] cr IH]; simpl; [discriminate |].
  destruct (in_diameter_range i' d).
  - intros [= <-]. now rewrite String.eqb_refl.
  - intros H. destruct (String.eqb c c'); [discriminate | now apply IH].
Qed.


Lemma make_section_result_keyerror (cr : cement_ratios_t) (i : nat)
    (d : detection) :
  dict_get "small" cr = None ->
  scan_categories cr (diameter_mm (det_box d)) = None ->
  make_section_result cr i d = None.
Proof.
  intros Hsmall Hscan. unfold make_section_result, classify_size.
  now rewrite Hscan, Hsmall.
Qed.

(** X2. When a tier named "small" is configured, building the record of a
    section never fails: the size category is a configured tier - the
    first whose range contains the diameter, else "small" - and the mix
    ratio attached is that tier's. Without a tier named "small", a
    diameter that no range contains makes the lookup fail (KeyError). *)
Theorem section_result_total (cr : cement_ratios_t) (i : nat) (d : detection) :
  (dict_get "small" cr <> None ->
   exists r info,
     make_section_result cr i d = Some r
     /\ size_category r = classify_size cr (diameter_mm (det_box d))
     /\ dict_get (size_category r) cr = Some info
     /\ cement_ratio r = cement info
     /\ sand_ratio r = sand info
     /\ aggregate_ratio r = aggregate info
     /\ section_id r = Z.of_nat i + 1)
  /\ (dict_get "small" cr = None ->
      scan_categories cr (diameter_mm (det_box d)) = None ->
      make_section_result cr i d = None).
Proof.
  split.
  - intros Hsmall. unfold make_section_result.
    assert (Hkey : dict_get (classify_size cr (diameter_mm (det_box d))) cr
                   <> None).
    { unfold classify_size.
      destruct (scan_categories cr (diameter_mm (det_box d))) as [c |] eqn:E;
        [exact (scan_categories_key cr _ c E) | exact Hsmall]. }
    cbv zeta.
    destruct (dict_get (classify_size cr (diameter_mm (det_box d))) cr)
      as [info |] eqn:E; [| contradiction].
    eexists. exists info. split; [reflexivity |]. simpl. repeat split.
    exact E.
  - intros Hsmall Hscan. unfold make_section_result, classify_size.
    now rewrite Hscan, Hsmall.
Qed.

Lemma section_result_total_witness :
  exists r info,
    make_section_result default_cement_ratios 0
      (Detection Samples.box1 0.91%float) = Some r
    /\ size_category r
       = classify_size default_cement_ratios (diameter_mm Samples.box1)
    /\ dict_get (size_category r) default_cement_ratios = Some info
    /\ cement_ratio r = cement info
    /\ sand_ratio r = sand info
    /\ aggregate_ratio r = aggregate info
    /\ section_id r = 1.
Proof.
  apply (proj1 (section_result_total default_cement_ratios 0
                  (Detection Samples.box1 0.91%float))).
  discriminate.
Defined.

(* ================================================================= *)
(** ** More of the edge: what a successful run publishes *)






Lemma update_api_data_image_path (e : env) (self : app) (la : latest_analysis_t) :
  current_results self <> [] ->
  image_path (update_api_data e self la)
  = Some (current_result_dir self ++ "/section_result.jpg")%string.
Proof.
  intros Hne. unfold update_api_data, update_api_data_writes.
  destruct (current_results self) as [| r rs] eqn:E; [contradiction |].
  rewrite api_loop_acc.
  destruct (result_image self) as [img |];
    [destruct (encode_jpeg_b64 e img) |]; reflexivity.
Qed.




(** X4. With no tier named "small" configured, a run whose first detected
    section has a diameter in no configured range aborts the analysis: the
    store is left as it was, no result is recorded, the status line reads
    "Analysis error", and the processing flag is cleared. *)
Theorem missing_fallback_tier_aborts
    (e : env) (self : app) (la : latest_analysis_t) (frame : picture)
    (d : detection) (ds : list detection) :
  captured_frame self = Some frame ->
  rebar_model e frame <> [] ->
  section_model e frame = d :: ds ->
  dict_get "small" (cement_ratios self) = None ->
  scan_categories (cement_ratios self) (diameter_mm (det_box d)) = None ->
  snd (_do_analyze e (self, la)) = la
  /\ current_results (fst (_do_analyze e (self, la))) = current_results self
  /\ status_label (fst (_do_analyze e (self, la))) = "Analysis error"
  /\ result_image (fst (_do_analyze e (self, la))) = result_image self
  /\ is_processing (fst (_do_analyze e (self, la))) = false.
Proof.
  intros Hf Hrebar Hsec Hsmall Hscan.
  unfold _do_analyze. cbv beta iota zeta. rewrite Hf.
  unfold detect_rebar.
  destruct (rebar_model e frame) as [| rb rbs]; [contradiction |].
  unfold detect_sections. cbv zeta. rewrite Hsec.
  simpl sections_loop.
  rewrite (make_section_result_keyerror (cement_ratios self) 0 d Hsmall Hscan).
  repeat split.
Qed.

Lemma missing_fallback_tier_aborts_witness :
  snd (_do_analyze Samples.env0 (Samples.app_no_small, Samples.store1))
  = Samples.store1.
Proof.
  assert (Hrebar : rebar_model Samples.env0 (Frame 0) <> []) by discriminate.
  apply (proj1 (missing_fallback_tier_aborts Samples.env0 Samples.app_no_small
                  Samples.store1 (Frame 0) (Detection Samples.box1 0.9%float)
                  [Detection Samples.box2 0.8%float]
                  eq_refl Hrebar eq_refl eq_refl eq_refl)).
Defined.

(* ================================================================= *)
(** ** More of the edge: what the store and its endpoints agree on *)



(* ================================================================= *)
(** ** More of the edge: the camera session *)






(* ================================================================= *)
(** ** More of the edge: the CSV report *)

Lemma writerow_refuses_bbox (d : section_data) :
  writerow csv_headers (section_data_items d) = None.
Proof. reflexivity. Qed.

(** X8. save_results_to_csv never writes a data row: every result carries
    the key "bbox", which is not among the CSV field names, so the first
    row is refused by the writer; the file is left with its header line
    only, the summary is not written, and the application object (its
    status line included) is as before. With no results no file is
    written at all. *)
Theorem csv_report_has_no_rows (self : app) :
  (current_results self <> [] ->
   save_results_to_csv self
   = (self, Report (Some [HeaderLine csv_headers]) false))
  /\ (current_results self = [] ->
      save_results_to_csv self = (self, Report None false)).
Proof.
  unfold save_results_to_csv. split; intros H.
  - destruct (current_results self) as [| r rs]; [contradiction |].
    cbn [write_rows]. now rewrite writerow_refuses_bbox.
  - now rewrite H.
Qed.

Lemma csv_report_has_no_rows_witness :
  save_results_to_csv Samples.app_run2
  = (Samples.app_run2, Report (Some [HeaderLine csv_headers]) false).
Proof.
  apply (proj1 (csv_report_has_no_rows Samples.app_run2)). discriminate.
Defined.

(* ================================================================= *)
(** ** More of the edge: configuration updates and reads *)

Lemma update_camera_index_threshold (e : env) (config_data : list (string * json))
    (self : app) :
  score_thresh_test (state_of (update_camera_index e config_data self))
  = score_thresh_test self.
Proof.
  unfold update_camera_index.
  destruct (dict_get "external_camera_index" config_data) as [w |];
    [| reflexivity].
  destruct (py_int e w) as [idx |]; [| reflexivity].
  destruct (camera_index self =? idx); [reflexivity |].
  simpl camera. destruct (camera self); [| reflexivity].
  unfold initialize_camera. simpl cam_opened.
  destruct (camera_opens e _) eqn:O; [| reflexivity].
  unfold start_preview. reflexivity.
Qed.

(** X9. A request that changes the camera index: when the index sent is
    the current one, nothing is touched. Otherwise the index is stored and
    written to the settings file first; then, with a camera session
    present, the session is released and reopened at the new index and
    the answer is 200 exactly when it opens; with no camera session the
    release raises and the answer is 500 although the index is already
    changed. *)
Theorem update_config_camera_change
    (e : env) (config_data : list (string * json)) (self : app)
    (w : json) (idx : Z) :
  dict_get "detection_threshold" config_data = None ->
  dict_get "external_camera_index" config_data = Some w ->
  py_int e w = Some idx ->
  (camera_index self = idx ->
   update_config e config_data (Some self)
   = (Http 200 (MessageBody "Configuration updated"), Some self))
  /\ (camera_index self <> idx ->
      exists s,
        snd (update_config e config_data (Some self)) = Some s
        /\ camera_index s = idx
        /\ camera_settings_file s = Some idx
        /\ camera s
           = match camera self with
             | Some _ => Some (Camera idx (camera_opens e idx))
             | None => None
             end
        /\ status_code (fst (update_config e config_data (Some self)))
           = (if camera_opens e idx && is_some (camera self) then 200 else 500)).
Proof.
  intros Ht Hw Hi.
  unfold update_config, update_threshold, update_camera_index.
  rewrite Ht, Hw, Hi. split.
  - intros <-. now rewrite Z.eqb_refl.
  - intros Hne. apply Z.eqb_neq in Hne. rewrite Hne. simpl camera.
    destruct (camera self) as [c |] eqn:C.
    + unfold initialize_camera. simpl.
      destruct (camera_opens e idx) eqn:O.
      * unfold start_preview, camera_ready. simpl.
        eexists. split; [reflexivity |]. simpl. repeat split.
      * eexists. split; [reflexivity |]. simpl. repeat split.
    + eexists. split; [reflexivity |]. simpl. rewrite C.
      repeat split. destruct (camera_opens e idx); reflexivity.
Qed.

Lemma update_config_camera_change_witness :
  update_config Samples.env0 [("external_camera_index", JInt 0)]
    (Some Samples.app0)
  = (Http 200 (MessageBody "Configuration updated"), Some Samples.app0).
Proof.
  apply (proj1 (update_config_camera_change Samples.env0
                  [("external_camera_index", JInt 0)] Samples.app0
                  (JInt 0) 0 eq_refl eq_refl eq_refl)).
  reflexivity.
Defined.

(** X10. Reading the configuration back after an update, whatever the
    answer was: GET /api/config reports the threshold sent when one was
    sent and converted, else the previous one; it reports the camera index
    sent when one was sent and converted and no threshold conversion
    failed before it - with or without a threshold in the same request -
    else the previous one; a threshold that does not convert leaves both
    as they were; camera_enabled is always true. An update with an empty
    body is answered 200 and changes nothing. *)
Theorem config_round_trip
    (e : env) (config_data : list (string * json)) (self s : app)
    (r : http_response) :
  update_config e config_data (Some self) = (r, Some s) ->
  (forall v f, dict_get "detection_threshold" config_data = Some v ->
               py_float e v = Some f ->
               detection_threshold (get_config (Some s)) = f)
  /\ (dict_get "detection_threshold" config_data = None ->
      detection_threshold (get_config (Some s)) = score_thresh_test self)
  /\ (forall v, dict_get "detection_threshold" config_data = Some v ->
                py_float e v = None ->
                detection_threshold (get_config (Some s))
                = score_thresh_test self
                /\ external_camera_index (get_config (Some s))
                   = camera_index self)
  /\ (forall w idx,
         (forall v, dict_get "detection_threshold" config_data = Some v ->
                    py_float e v <> None) ->
         dict_get "external_camera_index" config_data = Some w ->
         py_int e w = Some idx ->
         external_camera_index (get_config (Some s)) = idx)
  /\ (dict_get "external_camera_index" config_data = None ->
      external_camera_index (get_config (Some s)) = camera_index self)
  /\ (forall w, dict_get "external_camera_index" config_data = Some w ->
                py_int e w = None ->
                external_camera_index (get_config (Some s))
                = camera_index self)
  /\ camera_enabled (get_config (Some s)) = true
  /\ (config_data = [] ->
      r = Http 200 (MessageBody "Configuration updated") /\ s = self).
Proof.
  intros H.
  assert (Hempty : config_data = [] ->
                   r = Http 200 (MessageBody "Configuration updated")
                   /\ s = self).
  { intros ->. simpl in H. now injection H as <- <-. }
  revert H. unfold update_config, update_threshold, update_camera_index.
  destruct (dict_get "detection_threshold" config_data) as [v |] eqn:Ev;
    [destruct (py_float e v) as [f |] eqn:Ef |];
    (destruct (dict_get "external_camera_index" config_data) as [w |] eqn:Ew;
     [destruct (py_int e w) as [idx |] eqn:Ei |]);
    simpl camera_index; simpl camera;
    try (destruct (camera_index self =? idx) eqn:E;
         [apply Z.eqb_eq in E | apply Z.eqb_neq in E;
          destruct (camera self) as [c |] eqn:C;
          [unfold initialize_camera; simpl;
           destruct (camera_opens e idx) eqn:O;
           [unfold start_preview, camera_ready; simpl |] |]]);
    intros H; injection H as <- <-; simpl;
    repeat match goal with |- _ /\ _ => split end;
    try exact Hempty;
    try reflexivity;
    try (intros; simpl in *; congruence);
    try (intros; simpl in *; split; congruence);
    try (intros w0 idx0 Hok ? ?; exfalso; eapply Hok;
         [reflexivity | eassumption]).
Qed.

Lemma config_round_trip_witness :
  exists r s,
    update_config Samples.env0
      [("detection_threshold", JFloat 0.5%float);
       ("external_camera_index", JInt 2)]
      (Some Samples.app0) = (r, Some s)
    /\ detection_threshold (get_config (Some s)) = 0.5%float
    /\ external_camera_index (get_config (Some s)) = 2.
Proof.
  eexists. eexists. split; [reflexivity |].
  match goal with
  | |- detection_threshold (get_config (Some ?s)) = _ /\ _ =>
      pose proof (config_round_trip Samples.env0
                    [("detection_threshold", JFloat 0.5%float);
                     ("external_camera_index", JInt 2)]
                    Samples.app0 s _ eq_refl)
        as (Hthr & _ & _ & Hidx & _)
  end.
  split.
  - exact (Hthr (JFloat 0.5%float) 0.5%float eq_refl eq_refl).
  - apply (Hidx (JInt 2) 2); [| reflexivity | reflexivity].
    intros v Hv. injection Hv as <-. discriminate.
Defined.

(* ================================================================= *)
(** ** More of the relay: what every cycle broadcasts *)

(** Case analysis of one cycle: the probes, the flag before, and every
    answer the data sync looks at. *)
Ltac poll_cases net ld :=
  unfold App.poll_cycle, App.sync_data; cbv zeta;
  destruct (App.check_connection (App.status_probe net) (App.latest_probe net));
  destruct (App.connected ld); simpl;
  repeat match goal with
    | |- context [match App.latest_fetch ?n with _ => _ end] =>
        destruct (App.latest_fetch n) as [| ? | ? ?]; simpl
    | |- context [match App.image_fetch ?n with _ => _ end] =>
        destruct (App.image_fetch n) as [| ? | ? ?]; simpl
    | |- context [if ?c =? 200 then _ else _] =>
        destruct (c =? 200); simpl
    | |- context [if App.option_string_eqb ?a ?b then _ else _] =>
        destruct (App.option_string_eqb a b); simpl
    | |- context [if lb_image_available ?d then _ else _] =>
        destruct (lb_image_available d); simpl
    end.

Lemma poll_cycle_new_data_at_most_one (net : App.cycle_net)
    (ld : App.latest_data_t) :
  (App.count_new_data (snd (App.poll_cycle net ld)) <= 1)%nat.
Proof. poll_cases net ld; unfold App.count_new_data; simpl; lia. Qed.

(** X11. Every poll cycle ends its broadcasts with a connection_status
    event, and that event says connected only if the connected flag is
    set; a cycle broadcasts at most one new_data, and none when its probes
    failed; so a run of n cycles broadcasts at most n new_data events. *)
Theorem every_cycle_reports_status
    (net : App.cycle_net) (ld : App.latest_data_t) (nets : list App.cycle_net) :
  (exists b,
      last (snd (App.poll_cycle net ld)) App.connection_error
      = App.connection_status b
      /\ (b = true -> App.connected (fst (App.poll_cycle net ld)) = true))
  /\ (App.count_new_data (snd (App.poll_cycle net ld)) <= 1)%nat
  /\ (App.connected (fst (App.poll_cycle net ld)) = false ->
      App.count_new_data (snd (App.poll_cycle net ld)) = 0%nat)
  /\ (App.count_new_data (snd (App.get_raspi_data nets ld))
      <= List.length nets)%nat.
Proof.
  split; [| split; [apply poll_cycle_new_data_at_most_one | split]].
  - poll_cases net ld; eexists; (split; [reflexivity | congruence]).
  - rewrite poll_cycle_connected. intros Hc.
    unfold App.poll_cycle. cbv zeta. rewrite Hc.
    destruct (App.connected ld); reflexivity.
  - revert ld. induction nets as [| n nets IH]; intros ld;
      [apply Nat.le_refl |].
    simpl.
    pose proof (poll_cycle_new_data_at_most_one n ld) as H1.
    destruct (App.poll_cycle n ld) as [ld1 evs].
    specialize (IH ld1).
    destruct (App.get_raspi_data nets ld1) as [ld2 evs'].
    simpl in *. rewrite count_new_data_app. lia.
Qed.

(** X12. A cycle whose probes both succeed and whose data request then
    raises, or answers 200 with a body that does not decode: the cache is
    left as it was, connection_error is broadcast, the last broadcast says
    connected: false, and yet the connected flag that the relay's own
    endpoints serve stays true until the next cycle. *)
Theorem failed_fetch_leaves_flag_set
    (net : App.cycle_net) (ld : App.latest_data_t) :
  App.check_connection (App.status_probe net) (App.latest_probe net) = true ->
  App.latest_fetch net = App.Failed \/ App.latest_fetch net = App.Garbled 200 ->
  fst (App.poll_cycle net ld) = App.set_connected true ld
  /\ In App.connection_error (snd (App.poll_cycle net ld))
  /\ last (snd (App.poll_cycle net ld)) App.connection_error
     = App.connection_status false
  /\ App.ldb_connected (App.get_latest_data (fst (App.poll_cycle net ld))) = true
  /\ App.count_new_data (snd (App.poll_cycle net ld)) = 0%nat.
Proof.
  intros Hc Hf. unfold App.poll_cycle. cbv zeta. rewrite Hc.
  unfold App.sync_data.
  destruct Hf as [-> | ->]; simpl; destruct (App.connected ld); simpl;
    repeat split; auto.
Qed.

Lemma failed_fetch_leaves_flag_set_witness :
  App.ldb_connected
    (App.get_latest_data
       (fst (App.poll_cycle Samples.net_fetch_fails App.latest_data0))) = true
  /\ last (snd (App.poll_cycle Samples.net_fetch_fails App.latest_data0))
          App.connection_error
     = App.connection_status false.
Proof.
  destruct (failed_fetch_leaves_flag_set Samples.net_fetch_fails
              App.latest_data0 eq_refl (or_introl eq_refl))
    as (_ & _ & H3 & H4 & _).
  split; [exact H4 | exact H3].
Defined.

Lemma every_cycle_reports_status_witness :
  App.count_new_data
    (snd (App.poll_cycle Samples.net_latest_fails App.latest_data0)) = 0%nat.
Proof.
  apply (proj1 (proj2 (proj2 (every_cycle_reports_status
                                Samples.net_latest_fails App.latest_data0 [])))).
  reflexivity.
Defined.

(* ================================================================= *)
(** ** More of the relay: polling an edge that is up *)



Lemma poll_cycle_same_timestamp_witness :
  App.count_new_data
    (snd (App.poll_cycle Samples.net_ok
            (fst (App.poll_cycle Samples.net_ok App.latest_data0)))) = 0%nat.
Proof.
  apply (proj2 (poll_cycle_same_timestamp Samples.net_ok
                  (fst (App.poll_cycle Samples.net_ok App.latest_data0))
                  Samples.body1 eq_refl eq_refl eq_refl)).
Defined.





(* ================================================================= *)
(** ** More of the relay: requests forwarded to the edge *)

(** X17. The relay forwards a browser's capture or configuration request
    only while its connected flag is set: otherwise it answers 503 and the
    edge is not contacted. When it forwards, the status it answers is the
    edge's. A capture request forwarded to an edge that is busy is
    therefore answered 200 "Capture triggered successfully" while the
    edge's state stays as it was. *)
Theorem relay_forwards_when_connected
    (e : env) (ld : App.latest_data_t) (self : app)
    (config_data : list (string * json)) :
  (App.connected ld = false ->
   App.browser_capture e ld self
   = (App.Relay 503 (App.RError "Not connected to Raspberry Pi"), self)
   /\ App.browser_set_config e ld config_data self
      = (App.Relay 503 (App.RError "Not connected to Raspberry Pi"), self))
  /\ (App.connected ld = true ->
      App.r_code (fst (App.browser_capture e ld self))
      = status_code (fst (trigger_capture e (Some self)))
      /\ App.r_code (fst (App.browser_set_config e ld config_data self))
         = status_code (fst (update_config e config_data (Some self))))
  /\ (App.connected ld = true -> is_processing self = true ->
      thread_starts e = true ->
      App.browser_capture e ld self
      = (App.Relay 200 (App.RMessage "Capture triggered successfully"), self)).
Proof.
  split; [| split].
  - intros Hc. unfold App.browser_capture, App.browser_set_config.
    destruct (api_capture e self) as [r [[s1 ths] out]].
    destruct (update_config e config_data (Some self)) as [r' inst].
    unfold App.trigger_capture, App.set_config. rewrite Hc.
    split; reflexivity.
  - intros Hc. unfold App.browser_capture, App.browser_set_config. split.
    + unfold api_capture.
      destruct (trigger_capture e (Some self)) as [[code b] ths].
      destruct ths as [| th ths];
        [| destruct (capture_image self) as [[s1 t] o]];
        unfold App.trigger_capture, App.over_http; rewrite Hc; simpl;
        (destruct (code =? 200) eqn:E; simpl;
         [now apply Z.eqb_eq in E | reflexivity]).
    + destruct (update_config e config_data (Some self)) as [[code b] inst].
      unfold App.set_config, App.over_http. rewrite Hc. simpl.
      destruct (code =? 200) eqn:E; simpl; [| reflexivity].
      now apply Z.eqb_eq in E.
  - intros Hc Hbusy Hs. unfold App.browser_capture, api_capture,
      trigger_capture, capture_image. rewrite Hs, Hbusy.
    unfold App.trigger_capture, App.over_http. rewrite Hc. reflexivity.
Qed.

Lemma relay_forwards_when_connected_witness :
  App.browser_capture Samples.env0 App.latest_data0 Samples.app0
  = (App.Relay 503 (App.RError "Not connected to Raspberry Pi"), Samples.app0).
Proof.
  apply (proj1 (proj1 (relay_forwards_when_connected Samples.env0
                         App.latest_data0 Samples.app0 []) eq_refl)).
Defined.

(** X18. The relay's two views of its cached image: /api/latest_image
    answers 200 only when /api/latest_data reports has_image, and it
    serves any cached image that is not the empty string; the one case in
    which has_image is reported and the image is answered 404 is a cached
    empty string. *)
Theorem relay_image_endpoints (ld : App.latest_data_t) :
  (App.r_code (App.get_latest_image ld) = 200 ->
   App.ldb_has_image (App.get_latest_data ld) = true)
  /\ (forall b, App.last_image ld = Some b -> b <> "" ->
                App.get_latest_image ld = App.Relay 200 (App.RImage b))
  /\ (App.ldb_has_image (App.get_latest_data ld) = true ->
      App.r_code (App.get_latest_image ld) = 404 ->
      App.last_image ld = Some "").
Proof.
  unfold App.get_latest_image, App.get_latest_data. simpl.
  destruct (App.last_image ld) as [b |]; simpl.
  - destruct (String.eqb b "") eqn:E; simpl.
    + apply String.eqb_eq in E. subst b. repeat split; try discriminate.
      intros b [= <-] H. now contradiction H.
    + repeat split; try discriminate. intros b' [= <-] _. reflexivity.
  - repeat split; discriminate.
Qed.

(* ================================================================= *)
(** ** More of the store: readers and the writer under any schedule *)

Lemma run_schedule_store (sched : list turn) (c : conc) :
  store (run_schedule sched c)
  = fold_left apply_write (firstn (writer_turns sched) (pending c)) (store c)
  /\ pending (run_schedule sched c) = skipn (writer_turns sched) (pending c).
Proof.
  revert c. induction sched as [| t sched IH]; intros c; [split; reflexivity |].
  destruct t; simpl.
  - destruct (pending c) as [| w ws] eqn:P.
    + destruct (IH c) as (H1 & H2). rewrite P in H1, H2.
      rewrite firstn_nil in H1. rewrite skipn_nil in H2.
      unfold run_schedule in H1, H2. simpl. now split.
    + destruct (IH (Conc (apply_write (store c) w) ws (rd c))) as (H1 & H2).
      simpl in H1, H2. unfold run_schedule in H1, H2. now split.
  - destruct (IH (Conc (store c) (pending c) (reader_step (store c) (rd c))))
      as (H1 & H2).
    simpl in H1, H2. unfold run_schedule in H1, H2. now split.
Qed.

(** X19. Reads of /api/latest never change the store: under any
    interleaving of a reader with a publication, the store holds the
    assignments of as many leading writer turns as the schedule gave, and
    once the writer has had all its turns the store is exactly the
    published snapshot - a reader in between can see a mix, it cannot
    spoil the publication. *)
Theorem publication_completes_under_any_schedule
    (e : env) (self : app) (la : latest_analysis_t) (r : reader)
    (sched : list turn) :
  (List.length (update_api_data_writes e self) <= writer_turns sched)%nat ->
  store (run_schedule sched (Conc la (update_api_data_writes e self) r))
  = update_api_data e self la
  /\ pending (run_schedule sched (Conc la (update_api_data_writes e self) r))
     = [].
Proof.
  intros Hlen.
  destruct (run_schedule_store sched (Conc la (update_api_data_writes e self) r))
    as (H1 & H2).
  simpl in H1, H2. rewrite H1, H2.
  rewrite firstn_all2, skipn_all2 by exact Hlen. split; reflexivity.
Qed.

Lemma publication_completes_under_any_schedule_witness :
  store (run_schedule Samples.torn_schedule
           (Conc Samples.store1
              (update_api_data_writes Samples.env0 Samples.app_run2) AtTest))
  = update_api_data Samples.env0 Samples.app_run2 Samples.store1.
Proof.
  assert (Hlen : (List.length
                    (update_api_data_writes Samples.env0 Samples.app_run2)
                  <= writer_turns Samples.torn_schedule)%nat)
    by (vm_compute; lia).
  apply (proj1 (publication_completes_under_any_schedule Samples.env0
                  Samples.app_run2 Samples.store1 AtTest
                  Samples.torn_schedule Hlen)).
Defined.

Lemma relay_image_endpoints_witness :
  App.get_latest_image
    (fst (App.poll_cycle Samples.net_ok App.latest_data0))
  = App.Relay 200 (App.RImage "aW1hZ2U=").
Proof.
  apply (proj1 (proj2 (relay_image_endpoints
                         (fst (App.poll_cycle Samples.net_ok App.latest_data0))))
           "aW1hZ2U=" eq_refl).
  discriminate.
Defined.

(* ================================================================= *)
(** ** More of the tiers: the default configuration *)

(** For positive finite bounds [a <= b]: a float below [a] is not at or
    above [b] (NaN is neither). *)
Lemma float_below_not_above (d a b : float) (ma mb : positive) (ea eb : Z) :
  Prim2SF a = S754_finite false ma ea ->
  Prim2SF b = S754_finite false mb eb ->
  ea < eb \/ (ea = eb /\ (ma <= mb)%positive) ->
  PrimFloat.ltb d a = true -> PrimFloat.leb b d = false.
Proof.
  intros Ha Hb Hab. rewrite FloatAxioms.ltb_spec, FloatAxioms.leb_spec, Ha, Hb.
  unfold SFltb, SFleb, SFcompare.
  destruct (Prim2SF d) as [s | s | | s m e];
    [ destruct s; simpl; intros H; first [discriminate H | reflexivity]
    | destruct s; simpl; intros H; first [discriminate H | reflexivity]
    | simpl; intros H; discriminate H
    | ].
  destruct s; [reflexivity |].
  change (Pos.compare_cont Eq m ma) with (Pos.compare m ma).
  change (Pos.compare_cont Eq mb m) with (Pos.compare mb m).
  destruct (Z.compare_spec e ea) as [He | He | He]; try discriminate.
  - subst e. destruct (Pos.compare_spec m ma) as [Hm | Hm | Hm];
      try discriminate.
    intros _. destruct (Z.compare_spec eb ea) as [Hx | Hx | Hx];
      [| lia | reflexivity].
    destruct (Pos.compare_spec mb m) as [Hy | Hy | Hy]; [lia | lia | reflexivity].
  - intros _. destruct (Z.compare_spec eb e) as [Hx | Hx | Hx];
      [lia | lia | reflexivity].
Qed.

(** X20. With the default tiers small [6,12), medium [12,20), large [20,50):
    no diameter, NaN and infinities included, lies in two tiers; the
    category assigned is always one of the three names; and the scan in
    configured order gives, for every diameter, what a scan in ascending
    order of the minimum with the smallest tier as fallback gives. *)
Theorem default_tiers_partition (d : float) :
  Spec.one_tier_contains default_cement_ratios d
  /\ (classify_size default_cement_ratios d = "small"
      \/ classify_size default_cement_ratios d = "medium"
      \/ classify_size default_cement_ratios d = "large")
  /\ Spec.classify_sorted default_cement_ratios d
     = Some (classify_size default_cement_ratios d)
  /\ dict_get (classify_size default_cement_ratios d) default_cement_ratios
     <> None.
Proof.
  assert (H12 : PrimFloat.ltb d 12 = true -> PrimFloat.leb 12 d = false).
  { apply (float_below_not_above d 12 12 6755399441055744 6755399441055744
             (-49) (-49)); [reflexivity | reflexivity | right; split; lia]. }
  assert (H12_20 : PrimFloat.ltb d 12 = true -> PrimFloat.leb 20 d = false).
  { apply (float_below_not_above d 12 20 6755399441055744 5629499534213120
             (-49) (-48)); [reflexivity | reflexivity | left; lia]. }
  assert (H20 : PrimFloat.ltb d 20 = true -> PrimFloat.leb 20 d = false).
  { apply (float_below_not_above d 20 20 5629499534213120 5629499534213120
             (-48) (-48)); [reflexivity | reflexivity | right; split; lia]. }
  assert (Hsmall : in_diameter_range (RatioInfo 1 2 3 (Some (6, 12)%float)) d
                   = PrimFloat.leb 6 d && PrimFloat.ltb d 12) by reflexivity.
  assert (Hmedium : in_diameter_range (RatioInfo 1 2 4 (Some (12, 20)%float)) d
                    = PrimFloat.leb 12 d && PrimFloat.ltb d 20) by reflexivity.
  assert (Hlarge : in_diameter_range (RatioInfo 1 3 5 (Some (20, 50)%float)) d
                   = PrimFloat.leb 20 d && PrimFloat.ltb d 50) by reflexivity.
  split; [| split; [| split]].
  - intros c1 i1 c2 i2 H1 H2 R1 R2.
    destruct H1 as [H1 | [H1 | [H1 | []]]];
      destruct H2 as [H2 | [H2 | [H2 | []]]];
      injection H1 as <- <-; injection H2 as <- <-; try reflexivity;
      rewrite ?Hsmall, ?Hmedium, ?Hlarge in R1, R2;
      apply andb_true_iff in R1; apply andb_true_iff in R2;
      destruct R1 as (L1 & U1); destruct R2 as (L2 & U2);
      first [ rewrite (H12 U1) in L2; discriminate
            | rewrite (H12 U2) in L1; discriminate
            | rewrite (H12_20 U1) in L2; discriminate
            | rewrite (H12_20 U2) in L1; discriminate
            | rewrite (H20 U1) in L2; discriminate
            | rewrite (H20 U2) in L1; discriminate ].
  - unfold classify_size, default_cement_ratios, scan_categories.
    rewrite Hsmall, Hmedium, Hlarge.
    destruct (PrimFloat.leb 6 d && PrimFloat.ltb d 12); [now left |].
    destruct (PrimFloat.leb 12 d && PrimFloat.ltb d 20); [right; now left |].
    destruct (PrimFloat.leb 20 d && PrimFloat.ltb d 50); [right; now right |].
    now left.
  - unfold Spec.classify_sorted.
    change (Spec.sort_by_min default_cement_ratios) with default_cement_ratios.
    unfold classify_size.
    destruct (scan_categories default_cement_ratios d); reflexivity.
  - unfold classify_size, default_cement_ratios, scan_categories.
    rewrite Hsmall, Hmedium, Hlarge.
    destruct (PrimFloat.leb 6 d && PrimFloat.ltb d 12); [discriminate |].
    destruct (PrimFloat.leb 12 d && PrimFloat.ltb d 20); [discriminate |].
    destruct (PrimFloat.leb 20 d && PrimFloat.ltb d 50); discriminate.
Qed.

(* ================================================================= *)
(** ** More of the relay and the store: repeated data *)

(** X14. The relay tells new data by the timestamp alone: when the body it
    fetches carries the cached timestamp, whatever segments, volume or
    image flag that body has, the cache is not touched, the relay goes on
    serving the segments it had, and no new_data is broadcast. *)
Theorem same_timestamp_is_ignored
    (net : App.cycle_net) (ld : App.latest_data_t) (data : latest_body) :
  App.check_connection (App.status_probe net) (App.latest_probe net) = true ->
  App.latest_fetch net = App.Reply 200 data ->
  lb_timestamp data = App.last_update ld ->
  App.ldb_segments (App.get_latest_data (fst (App.poll_cycle net ld)))
  = App.last_results ld
  /\ App.ldb_total_volume (App.get_latest_data (fst (App.poll_cycle net ld)))
     = App.total_volume ld
  /\ App.ldb_has_image (App.get_latest_data (fst (App.poll_cycle net ld)))
     = is_some (App.last_image ld)
  /\ App.ldb_connected (App.get_latest_data (fst (App.poll_cycle net ld))) = true
  /\ App.count_new_data (snd (App.poll_cycle net ld)) = 0%nat
  /\ last (snd (App.poll_cycle net ld)) App.connection_error
     = App.connection_status true.
Proof.
  intros Hc Hf Ht.
  destruct (poll_cycle_same_timestamp net ld data Hc Hf Ht) as (Hst & Hcount).
  rewrite Hst. split; [reflexivity |]. split; [reflexivity |].
  split; [reflexivity |]. split; [reflexivity |]. split; [exact Hcount |].
  unfold App.poll_cycle. cbv zeta. rewrite Hc.
  unfold App.sync_data. rewrite Hf. simpl.
  rewrite (proj2 (option_string_eqb_eq _ _) Ht).
  destruct (App.connected ld); reflexivity.
Qed.

Lemma same_timestamp_is_ignored_witness :
  App.count_new_data
    (snd (App.poll_cycle Samples.net_ok
            (fst (App.poll_cycle Samples.net_ok App.latest_data0)))) = 0%nat.
Proof.
  apply (proj1 (proj2 (proj2 (proj2 (proj2
           (same_timestamp_is_ignored Samples.net_ok
              (fst (App.poll_cycle Samples.net_ok App.latest_data0))
              Samples.body1 eq_refl eq_refl eq_refl)))))).
Defined.

(** X15. Publishing is idempotent and the last publication wins: running
    update_api_data twice on the same application object gives the store
    of running it once; and a publication with results replaces the
    timestamp, the segments, the total and the picture path of whatever
    was published before, keeping of the earlier store only its image,
    and that only when the new picture is missing or cannot be encoded. *)
Theorem publication_is_idempotent
    (e e1 : env) (self self1 : app) (la : latest_analysis_t) :
  update_api_data e self (update_api_data e self la) = update_api_data e self la
  /\ (current_results self <> [] ->
      timestamp (update_api_data e self (update_api_data e1 self1 la))
      = timestamp (update_api_data e self la)
      /\ segments (update_api_data e self (update_api_data e1 self1 la))
         = segments (update_api_data e self la)
      /\ total_volume (update_api_data e self (update_api_data e1 self1 la))
         = total_volume (update_api_data e self la)
      /\ image_path (update_api_data e self (update_api_data e1 self1 la))
         = image_path (update_api_data e self la)
      /\ (forall img b, result_image self = Some img ->
                        encode_jpeg_b64 e img = Some b ->
                        image (update_api_data e self
                                 (update_api_data e1 self1 la)) = Some b)).
Proof.
  split.
  - unfold update_api_data, update_api_data_writes.
    destruct (current_results self) as [| r rs]; [reflexivity |].
    rewrite api_loop_acc.
    destruct (result_image self) as [img |];
      [destruct (encode_jpeg_b64 e img) |]; reflexivity.
  - intros Hne.
    destruct (update_api_data_fields e self (update_api_data e1 self1 la) Hne)
      as (Ht & Hs & Hv & Hi).
    destruct (update_api_data_fields e self la Hne) as (Ht' & Hs' & Hv' & _).
    rewrite Ht, Hs, Hv, Ht', Hs', Hv'.
    rewrite !update_api_data_image_path by exact Hne.
    repeat split. intros img b Himg Henc. now rewrite Hi, Himg, Henc.
Qed.

Lemma publication_is_idempotent_witness :
  timestamp (update_api_data Samples.env0 Samples.app_run2
               (update_api_data Samples.env0
                  (fst Samples.after_run1) latest_analysis0))
  = timestamp (update_api_data Samples.env0 Samples.app_run2 latest_analysis0).
Proof.
  assert (Hne : current_results Samples.app_run2 <> []) by discriminate.
  apply (proj1 (proj2 (publication_is_idempotent Samples.env0 Samples.env0
                         Samples.app_run2 (fst Samples.after_run1)
                         latest_analysis0) Hne)).
Defined.
